(** * Healthcare risk assessment: a shallow embedding of the scoring pipeline

    The development follows the Python sources file by file:
    - [config.py]: keyword tiers and symptom patterns;
    - [data_loader.py]: [chunk_text];
    - [risk_scorer.py]: [rule_based_score], [llm_based_score], [hybrid_score];
    - [rag_recommender.py]: [generate_recommendation];
    - [analyzer.py]: [analyze_conversation].

    Conventions of the embedding.
    - A Python [str] is a Rocq [string]; a character is a code point below 256.
    - A Python [int] is a [Z].  A Python [float] is an exact rational [Q]:
      the decimal constants of the source ([0.7], [0.05], ...) denote the
      rationals they spell, and comparisons are the rational ones.
    - A call that may raise returns a [result]; [try ... except Exception]
      is [try_except].
    - The language model, the retriever, [re.sub], [json.loads] and the
      printing of a float are capabilities of the environment: they are
      fields of the records [OpenAI], [RAGRecommender.t] and [PyLib]. *)

From Stdlib Require Import ZArith QArith Qround Qminmax List String Ascii Bool.
From Stdlib Require Import Lia Lqa.
Import ListNotations.

Set Implicit Arguments.
Set Warnings "-register-all".

(** ** Python values, exceptions and results *)

Record exn : Type := mk_exn { exn_type : string; exn_msg : string }.

(** [str(e)] *)
Definition str_of_exn (e : exn) : string := exn_msg e.

Inductive result (A : Type) : Type :=
| Return (a : A)
| Raise (e : exn).

Arguments Return {A} a.
Arguments Raise {A} e.

Definition bind {A B : Type} (m : result A) (k : A -> result B) : result B :=
  match m with
  | Return a => k a
  | Raise e => Raise e
  end.

Notation "'do' x <- m ; k" := (bind m (fun x => k))
  (at level 10, x name, m at level 100, k at level 200).

(** [try: body  except Exception as e: handler e] *)
Definition try_except {A : Type} (body : result A) (handler : exn -> result A)
  : result A :=
  match body with
  | Return a => Return a
  | Raise e => handler e
  end.

(** The values [json.loads] builds, which are also the dictionaries the
    scorer and the recommender return.  [JNum] carries a finite number. *)
Inductive json : Type :=
| JNull
| JBool (b : bool)
| JNum (q : Q)
| JStr (s : string)
| JArr (l : list json)
| JObj (d : list (string * json)).

(** ** Strings *)

Definition nl : string := String (ascii_of_nat 10) EmptyString.
Definition dq : string := String (ascii_of_nat 34) EmptyString.

Definition code (c : ascii) : N := N_of_ascii c.

(** [str.isspace] on one character below 256 *)
Definition isspace (c : ascii) : bool :=
  let n := code c in
  ((9 <=? n) && (n <=? 13) || (28 <=? n) && (n <=? 32)
   || (n =? 133) || (n =? 160))%N.

(** [str.lower] on one character below 256: [A-Z] and the capital letters
    of Latin-1 move 32 places up, every other character stays. *)
Definition is_upper (c : ascii) : bool :=
  let n := code c in
  ((65 <=? n) && (n <=? 90)
   || (192 <=? n) && (n <=? 222) && negb (n =? 215))%N.

Definition lower_char (c : ascii) : ascii :=
  if is_upper c then ascii_of_N (code c + 32) else c.

Fixpoint lower (s : string) : string :=
  match s with
  | EmptyString => EmptyString
  | String c r => String (lower_char c) (lower r)
  end.

(** [s.startswith(p)] *)
Fixpoint startswith (p s : string) : bool :=
  match p, s with
  | EmptyString, _ => true
  | String _ _, EmptyString => false
  | String a p', String b s' => Ascii.eqb a b && startswith p' s'
  end.

(** [kw in s] for strings: [kw] starts some suffix of [s]. *)
Fixpoint str_in (kw s : string) : bool :=
  startswith kw s ||
  match s with
  | EmptyString => false
  | String _ r => str_in kw r
  end.

(** [sep.join(ws)] *)
Fixpoint join (sep : string) (ws : list string) : string :=
  match ws with
  | [] => EmptyString
  | [w] => w
  | w :: rest => (w ++ sep ++ join sep rest)%string
  end.

Definition flush (cur : string) : list string :=
  match cur with
  | EmptyString => []
  | _ => [cur]
  end.

(** [s.split()]: maximal runs of characters that are not whitespace.
    [cur] is the run read so far. *)
Fixpoint split_from (cur : string) (s : string) : list string :=
  match s with
  | EmptyString => flush cur
  | String c r =>
      if isspace c then (flush cur ++ split_from EmptyString r)%list
      else split_from (cur ++ String c EmptyString)%string r
  end.

Definition split (s : string) : list string := split_from EmptyString s.

Fixpoint lstrip (s : string) : string :=
  match s with
  | EmptyString => EmptyString
  | String c r => if isspace c then lstrip r else s
  end.

Fixpoint rstrip (s : string) : string :=
  match s with
  | EmptyString => EmptyString
  | String c r =>
      match rstrip r with
      | EmptyString => if isspace c then EmptyString else String c EmptyString
      | r' => String c r'
      end
  end.

(** [s.strip()] *)
Definition strip (s : string) : string := rstrip (lstrip s).

(** [s[:n]] for [n >= 0] *)
Fixpoint str_take (n : nat) (s : string) : string :=
  match n, s with
  | O, _ => EmptyString
  | _, EmptyString => EmptyString
  | S n', String c r => String c (str_take n' r)
  end.

Open Scope string_scope.

(** ** Numbers *)

Open Scope Q_scope.

(** [min(a, b)]: the first argument unless the second is strictly smaller. *)
Definition py_min (a b : Q) : Q :=
  match b ?= a with
  | Lt => b
  | _ => a
  end.

(** [x >= y] on floats *)
Definition ge_bool (x y : Q) : bool := Qle_bool y x.

(** Nearest integer, ties to the even one. *)
Definition round_half_even (x : Q) : Z :=
  let f := Qfloor x in
  match ((x - inject_Z f) ?= (1 # 2))%Q with
  | Lt => f
  | Gt => (f + 1)%Z
  | Eq => if Z.even f then f else (f + 1)%Z
  end.

(** [round(x, ndigits)] for [ndigits >= 0] *)
Definition py_round (x : Q) (ndigits : nat) : Q :=
  let p := inject_Z (10 ^ Z.of_nat ndigits) in
  inject_Z (round_half_even (x * p)) / p.

(** [sum(1 for x in xs if p x)] *)
Definition sum_ones {A : Type} (p : A -> bool) (xs : list A) : Z :=
  fold_left (fun acc x => if p x then (acc + 1)%Z else acc) xs 0%Z.

(** ** config.py *)

Record KeywordSet : Type := mk_keywords {
  high : list string;
  medium : list string;
  low : list string
}.

Definition LLM_MODEL : string := "gpt-4.1".

Definition HIV_RISK_KEYWORDS : KeywordSet := {|
  high := ["unprotected"; "multiple partners"; "sti"; "sexually transmitted";
           "injection drug"; "needle sharing"; "sex work"; "recent exposure"];
  medium := ["partner"; "condom"; "test"; "worried"; "concerned"; "symptoms"];
  low := ["healthy"; "monogamous"; "protected"; "negative test"]
|}%string.

Definition MENTAL_HEALTH_KEYWORDS : KeywordSet := {|
  high := ["suicide"; "self-harm"; "hopeless"; "worthless"; "can't go on";
           "death wish"; "ending it"; "severe depression"; "psychosis"];
  medium := ["depressed"; "anxious"; "stressed"; "worried"; "can't sleep";
             "panic"; "trauma"; "abuse"; "isolated"; "crying"];
  low := ["concerned"; "nervous"; "tired"; "overwhelmed"]
|}%string.

Definition HIV_SYMPTOM_PATTERNS : list string :=
  ["fever"; "night sweats"; "weight loss"; "fatigue"; "swollen glands";
   "rash"; "sore throat"; "muscle aches"; "genital sores"; "discharge"]%string.

Definition MH_SYMPTOM_PATTERNS : list string :=
  ["sad"; "hopeless"; "anxious"; "panic"; "can't focus"; "irritable";
   "mood swings"; "hearing voices"; "paranoid"; "flashbacks"]%string.

(** ** data_loader.py *)

Record Message : Type := mk_message {
  timestamp : string;
  role : string;
  text : string
}.

(** One parsed conversation, as [load_conversations] builds it. *)
Record Conversation : Type := mk_conversation {
  messages : list Message;
  full_text : string;
  user_text : string;
  message_count : Z
}.

Fixpoint range_up (fuel : nat) (i stop step : Z) : list Z :=
  match fuel with
  | O => []
  | S f => if (i <? stop)%Z then i :: range_up f (i + step)%Z stop step else []
  end.

Fixpoint range_down (fuel : nat) (i stop step : Z) : list Z :=
  match fuel with
  | O => []
  | S f => if (stop <? i)%Z then i :: range_down f (i + step)%Z stop step else []
  end.

(** [range(start, stop, step)], the indices in the order a [for] visits
    them.  A positive step moves by at least one, so [stop - start] rounds
    of fuel reach [stop]; likewise downwards. *)
Definition py_range (start stop step : Z) : result (list Z) :=
  if (step =? 0)%Z then
    Raise (mk_exn "ValueError" "range() arg 3 must not be zero")
  else if (0 <? step)%Z then
    Return (range_up (Z.to_nat (stop - start)) start stop step)
  else
    Return (range_down (Z.to_nat (start - stop)) start stop step).

(** A slice bound [k] of a sequence of length [n]: negative bounds count
    from the end, and every bound is clipped to [0..n]. *)
Definition slice_bound (n k : Z) : Z :=
  if (k <? 0)%Z then Z.max (k + n) 0 else Z.min k n.

(** [xs[i:j]] *)
Definition py_slice {A : Type} (xs : list A) (i j : Z) : list A :=
  let n := Z.of_nat (List.length xs) in
  let lo := slice_bound n i in
  let hi := slice_bound n j in
  firstn (Z.to_nat (hi - lo)) (skipn (Z.to_nat lo) xs).

(** The truth value of a string: it is not empty. *)
Definition truthy (s : string) : bool :=
  match s with
  | EmptyString => false
  | _ => true
  end.

Definition chunk_text (text : string) (chunk_size overlap : Z)
  : result (list string) :=
  let words := split text in
  do idx <- py_range 0 (Z.of_nat (List.length words)) (chunk_size - overlap);
  Return
    (fold_left
       (fun chunks i =>
          let chunk := join " " (py_slice words i (i + chunk_size)) in
          if truthy chunk then (chunks ++ [chunk])%list else chunks)
       idx []).

(** ** Capabilities of the environment *)

(** [client.chat.completions.create(model, temperature, max_tokens,
    messages=[user prompt])] followed by [.choices[0].message.content]:
    the text of the first choice, or the exception either step raises. *)
Record OpenAI : Type := mk_openai {
  chat_completions_create : string -> Q -> Z -> string -> result string
}.

(** Library functions the sources call.
    - [re_sub_fence s] is [re.sub(r'^```json\s*|\s*```$', '', s,
      flags=re.MULTILINE)];
    - [json_loads] is [json.loads];
    - [str_of_float] prints a float inside an f-string. *)
Record PyLib : Type := mk_pylib {
  re_sub_fence : string -> string;
  json_loads : string -> result json;
  str_of_float : Q -> string
}.

(** ** Dictionaries and dynamic typing *)

Fixpoint assoc (k : string) (d : list (string * json)) : option json :=
  match d with
  | [] => None
  | (k', v) :: rest => if String.eqb k k' then Some v else assoc k rest
  end.

(** [v.get(k, default)]; only a dictionary has the method. *)
Definition py_get (v : json) (k : string) (default : json) : result json :=
  match v with
  | JObj d =>
      Return (match assoc k d with Some x => x | None => default end)
  | _ => Raise (mk_exn "AttributeError" "object has no attribute 'get'")
  end.

(** [v * f] for a float [f]: [v] must be a number ([True] is 1 and
    [False] is 0). *)
Definition mul_float (v : json) (f : Q) : result Q :=
  match v with
  | JNum q => Return (q * f)
  | JBool b => Return ((if b then 1 else 0) * f)
  | _ => Raise (mk_exn "TypeError" "unsupported operand type(s) for *")
  end.

Fixpoint chars (s : string) : list string :=
  match s with
  | EmptyString => []
  | String c r => String c EmptyString :: chars r
  end.

Fixpoint all_str (l : list json) : result (list string) :=
  match l with
  | [] => Return []
  | JStr s :: rest => do ws <- all_str rest; Return (s :: ws)
  | _ :: _ => Raise (mk_exn "TypeError" "sequence item: expected str instance")
  end.

(** [sep.join(v)]: [v] must be an iterable whose items are strings; a
    string is iterated by characters and a dictionary by keys. *)
Definition join_json (sep : string) (v : json) : result string :=
  match v with
  | JArr l => do ws <- all_str l; Return (join sep ws)
  | JStr s => Return (join sep (chars s))
  | JObj d => Return (join sep (map fst d))
  | _ => Raise (mk_exn "TypeError" "can only join an iterable")
  end.

(** ** risk_scorer.py *)

Record Details : Type := mk_details {
  high_risk_matches : list string;
  medium_risk_matches : list string;
  low_risk_matches : list string;
  symptom_matches : list string
}.

Record RuleBased : Type := mk_rule_based {
  score : Q;
  category : string;
  details : Details
}.

Record DomainRisk : Type := mk_domain_risk {
  final_score : Q;
  final_category : string;
  rule_based : RuleBased;
  llm_based : json
}.

(** The dictionary [hybrid_score] returns. *)
Record RiskAssessment : Type := mk_risk_assessment {
  hiv_risk : DomainRisk;
  mental_health_risk : DomainRisk
}.

Module RiskScorer.

Record t : Type := mk { client : option OpenAI }.

Definition rule_based_score (text : string) (keywords : KeywordSet)
    (symptoms : list string) : Q * string * Details :=
  let text_lower := lower text in
  let hit := fun kw => str_in kw text_lower in
  let high_count := sum_ones hit (high keywords) in
  let medium_count := sum_ones hit (medium keywords) in
  let low_count := sum_ones hit (low keywords) in
  let symptom_count := sum_ones hit symptoms in
  let details := {|
    high_risk_matches := filter hit (high keywords);
    medium_risk_matches := filter hit (medium keywords);
    low_risk_matches := filter hit (low keywords);
    symptom_matches := filter hit symptoms
  |} in
  let score := 0.0 in
  let score :=
    if (high_count >? 0)%Z then
      score + (0.7 + inject_Z high_count * 0.1)
    else if (medium_count >? 0)%Z then
      score + (0.4 + inject_Z medium_count * 0.05)
    else if (low_count >? 0)%Z then
      score + (0.1 + inject_Z low_count * 0.02)
    else score in
  let score :=
    if (symptom_count >? 0)%Z then
      score + py_min (inject_Z symptom_count * 0.1) 0.3
    else score in
  let score := py_min score 1.0 in
  let category :=
    if ge_bool score 0.7 then "HIGH"
    else if ge_bool score 0.4 then "MEDIUM"
    else "LOW" in
  (score, category, details).

Definition llm_prompt (conversation_text risk_type : string) : string :=
  join nl
    [ "You are a clinical risk assessment expert analyzing a conversation between an AI chatbot and a healthcare client.";
      EmptyString;
      "Analyze the following conversation for " ++ risk_type ++ " RISK ASSESSMENT.";
      EmptyString;
      "Conversation:";
      conversation_text;
      EmptyString;
      "Provide a structured risk assessment in JSON format with:";
      "1. " ++ dq ++ "score" ++ dq ++ ": A numerical score from 0.0 (no risk) to 1.0 (extreme risk)";
      "2. " ++ dq ++ "category" ++ dq ++ ": Classification as " ++ dq ++ "LOW" ++ dq ++ ", " ++ dq ++ "MEDIUM" ++ dq ++ ", or " ++ dq ++ "HIGH" ++ dq;
      "3. " ++ dq ++ "reasoning" ++ dq ++ ": Brief explanation of the assessment (2-3 sentences)";
      "4. " ++ dq ++ "risk_factors" ++ dq ++ ": List of specific concerns identified";
      "5. " ++ dq ++ "protective_factors" ++ dq ++ ": List of positive/protective elements identified";
      "6. " ++ dq ++ "urgent_flags" ++ dq ++ ": Boolean indicating if immediate intervention needed";
      EmptyString;
      "Consider:";
      "- For HIV: Sexual behavior, exposure risks, symptoms, partner status, prevention practices";
      "- For Mental Health: Mood indicators, self-harm mentions, functioning, support systems, trauma";
      EmptyString;
      "Respond ONLY with valid JSON, no other text." ].

Definition llm_based_score (self : t) (lib : PyLib)
    (conversation_text risk_type : string) : result json :=
  match client self with
  | None =>
      Return (JObj [ ("score", JNum 0.0);
                     ("category", JStr "UNKNOWN");
                     ("reasoning", JStr "API key not configured");
                     ("risk_factors", JArr []);
                     ("protective_factors", JArr []) ])
  | Some c =>
      let prompt := llm_prompt conversation_text risk_type in
      try_except
        (do content <- chat_completions_create c LLM_MODEL 0.3 1000%Z prompt;
         let result_text := strip content in
         let result_text := re_sub_fence lib result_text in
         do result <- json_loads lib result_text;
         Return result)
        (fun e =>
           Return (JObj [ ("score", JNum 0.0);
                          ("category", JStr "ERROR");
                          ("reasoning",
                           JStr ("Analysis error: " ++ str_of_exn e));
                          ("risk_factors", JArr []);
                          ("protective_factors", JArr []);
                          ("urgent_flags", JBool false) ]))
  end.

Definition categorize (score : Q) : string :=
  if ge_bool score 0.7 then "HIGH"
  else if ge_bool score 0.4 then "MEDIUM"
  else "LOW".

Definition hybrid_score (self : t) (lib : PyLib)
    (conversation : Conversation) : result RiskAssessment :=
  let text := full_text conversation in
  let '(hiv_rule_score, hiv_rule_cat, hiv_details) :=
    rule_based_score text HIV_RISK_KEYWORDS HIV_SYMPTOM_PATTERNS in
  let '(mh_rule_score, mh_rule_cat, mh_details) :=
    rule_based_score text MENTAL_HEALTH_KEYWORDS MH_SYMPTOM_PATTERNS in
  do hiv_llm <- llm_based_score self lib text "HIV";
  do mh_llm <- llm_based_score self lib text "Mental Health";
  do hiv_model <- py_get hiv_llm "score" (JNum 0);
  do hiv_weighted <- mul_float hiv_model 0.6;
  let hiv_final_score := hiv_rule_score * 0.4 + hiv_weighted in
  do mh_model <- py_get mh_llm "score" (JNum 0);
  do mh_weighted <- mul_float mh_model 0.6;
  let mh_final_score := mh_rule_score * 0.4 + mh_weighted in
  Return {|
    hiv_risk := {|
      final_score := py_round hiv_final_score 3;
      final_category := categorize hiv_final_score;
      rule_based := {| score := py_round hiv_rule_score 3;
                       category := hiv_rule_cat;
                       details := hiv_details |};
      llm_based := hiv_llm |};
    mental_health_risk := {|
      final_score := py_round mh_final_score 3;
      final_category := categorize mh_final_score;
      rule_based := {| score := py_round mh_rule_score 3;
                       category := mh_rule_cat;
                       details := mh_details |};
      llm_based := mh_llm |}
  |}.

End RiskScorer.

(** ** rag_recommender.py *)

Module RAGRecommender.

(** [retrieve_relevant_chunks query top_k] stands for the method of the
    same name: it embeds the query and searches the index, or raises what
    the embedder or the index raises. *)
Record t : Type := mk {
  client : option OpenAI;
  retrieve_relevant_chunks : string -> Z -> result (list string)
}.

Definition recommendation_prompt (lib : PyLib)
    (risk_assessment : RiskAssessment) (hiv_factors mh_factors : string)
    (hiv_context mh_context : list string) (conversation_text : string)
  : string :=
  join nl
    [ "You are a South African healthcare professional providing evidence-based recommendations according to NDOH guidelines.";
      EmptyString;
      "RISK ASSESSMENT SUMMARY:";
      "- HIV Risk: " ++ final_category (hiv_risk risk_assessment)
        ++ " (Score: "
        ++ str_of_float lib (final_score (hiv_risk risk_assessment)) ++ ")";
      "- Mental Health Risk: "
        ++ final_category (mental_health_risk risk_assessment)
        ++ " (Score: "
        ++ str_of_float lib (final_score (mental_health_risk risk_assessment))
        ++ ")";
      EmptyString;
      "HIV RISK FACTORS:";
      hiv_factors;
      EmptyString;
      "MENTAL HEALTH CONCERNS:";
      mh_factors;
      EmptyString;
      "RELEVANT NDOH GUIDELINES - HIV:";
      join nl hiv_context;
      EmptyString;
      "RELEVANT NDOH GUIDELINES - MENTAL HEALTH:";
      join nl mh_context;
      EmptyString;
      "CONVERSATION CONTEXT:";
      str_take 800 conversation_text ++ "...";
      EmptyString;
      "Provide:";
      "1. HIV RECOMMENDATION: Specific evidence-based actions (testing, PrEP, counseling) per SA guidelines";
      "2. MENTAL HEALTH RECOMMENDATION: Appropriate interventions and referrals per SA guidelines  ";
      "3. INTEGRATED TREATMENT PLAN: Holistic 3-step action plan addressing both concerns";
      EmptyString;
      "Format as JSON:";
      "{";
      "  " ++ dq ++ "hiv_recommendation" ++ dq ++ ": " ++ dq ++ "..." ++ dq ++ ",";
      "  " ++ dq ++ "mh_recommendation" ++ dq ++ ": " ++ dq ++ "..." ++ dq ++ ",";
      "  " ++ dq ++ "integrated_plan" ++ dq ++ ": " ++ dq ++ "..." ++ dq;
      "}" ].

Definition generate_recommendation (self : t) (lib : PyLib)
    (risk_assessment : RiskAssessment) (conversation_text : string)
  : result json :=
  match client self with
  | None =>
      Return (JObj [ ("hiv_recommendation", JStr "API not configured");
                     ("mh_recommendation", JStr "API not configured");
                     ("integrated_plan", JStr "API not configured") ])
  | Some c =>
      let hiv_query :=
        "HIV risk " ++ final_category (hiv_risk risk_assessment)
        ++ " testing PrEP treatment" in
      let mh_query :=
        "mental health "
        ++ final_category (mental_health_risk risk_assessment)
        ++ " counseling treatment" in
      do hiv_context <- retrieve_relevant_chunks self hiv_query 3%Z;
      do mh_context <- retrieve_relevant_chunks self mh_query 3%Z;
      do hiv_listed <-
        py_get (llm_based (hiv_risk risk_assessment)) "risk_factors"
               (JArr [JStr "None identified"]);
      do hiv_factors <- join_json ", " hiv_listed;
      do mh_listed <-
        py_get (llm_based (mental_health_risk risk_assessment))
               "risk_factors" (JArr [JStr "None identified"]);
      do mh_factors <- join_json ", " mh_listed;
      let prompt :=
        recommendation_prompt lib risk_assessment hiv_factors mh_factors
                              hiv_context mh_context conversation_text in
      try_except
        (do content <- chat_completions_create c LLM_MODEL 0.5 1500%Z prompt;
         let result_text := strip content in
         let result_text := re_sub_fence lib result_text in
         do recommendations <- json_loads lib result_text;
         Return recommendations)
        (fun e =>
           Return
             (JObj [ ("hiv_recommendation",
                      JStr ("Error generating recommendation: "
                            ++ str_of_exn e));
                     ("mh_recommendation",
                      JStr ("Error generating recommendation: "
                            ++ str_of_exn e));
                     ("integrated_plan",
                      JStr ("Error generating plan: " ++ str_of_exn e)) ]))
  end.

End RAGRecommender.

(** ** analyzer.py *)

Record ConversationSummary : Type := mk_summary {
  summary_message_count : Z;
  text_preview : string
}.

(** The record [analyze_conversation] returns. *)
Record Analysis : Type := mk_analysis {
  conversation : ConversationSummary;
  risk_assessment : RiskAssessment;
  recommendations : json
}.

Module ConversationAnalyzer.

Record t : Type := mk {
  risk_scorer : RiskScorer.t;
  recommender : RAGRecommender.t
}.

Definition analyze_conversation (self : t) (lib : PyLib)
    (conv : Conversation) : result Analysis :=
  do risk_scores <- RiskScorer.hybrid_score (risk_scorer self) lib conv;
  do recs <-
    RAGRecommender.generate_recommendation (recommender self) lib
      risk_scores (full_text conv);
  Return {|
    conversation := {|
      summary_message_count := message_count conv;
      text_preview := str_take 200 (full_text conv) ++ "..." |};
    risk_assessment := risk_scores;
    recommendations := recs
  |}.

End ConversationAnalyzer.

(** ** What the specification says, in its own words

    These definitions follow the prose of the specification; the theorems
    below compare them with the functions above. *)

(** [phrase] occurs in [s] as written. *)
Definition occurs (phrase s : string) : Prop :=
  exists pre suf, s = pre ++ phrase ++ suf.

(** [phrase] occurs in [s] when letter case is ignored: some stretch of
    [s] spells [phrase] up to case. *)
Definition occurs_ignoring_case (phrase s : string) : Prop :=
  exists pre mid suf, s = pre ++ mid ++ suf /\ lower mid = lower phrase.

(** The number of entries of [phrases] occurring in the lowercased text. *)
Definition match_count (phrases : list string) (text : string) : Z :=
  Z.of_nat
    (List.length (filter (fun p => str_in p (lower text)) phrases)).


(** Highest tier wins: the base score of the tier policy. *)
Definition spec_tier_base (h m l : Z) : Q :=
  if (0 <? h)%Z then 0.7 + 0.1 * inject_Z h
  else if (0 <? m)%Z then 0.4 + 0.05 * inject_Z m
  else if (0 <? l)%Z then 0.1 + 0.02 * inject_Z l
  else 0.

(** The symptom bonus, capped at 0.3. *)
Definition spec_symptom_bonus (s : Z) : Q := Qmin (0.1 * inject_Z s) 0.3.


(** The threshold function of the specification. *)
Definition spec_category (s : Q) : string :=
  if Qle_bool 0.7 s then "HIGH"
  else if Qle_bool 0.4 s then "MEDIUM"
  else "LOW".

(** The windows of [words]: window [k] starts at word [k * step] and holds
    at most [width] words. *)
Definition window (words : list string) (width step k : nat) : list string :=
  firstn width (skipn (k * step) words).

(** The number of windows: the least [c] with [c * step >= n]. *)
Definition window_count (n step : nat) : nat := (n + step - 1) / step.

Definition spec_chunks (words : list string) (width step : nat)
  : list string :=
  map (fun k => join " " (window words width step k))
      (seq 0 (window_count (List.length words) step)).

(** A word as [split] yields it: not empty and free of whitespace. *)
Fixpoint no_space (s : string) : bool :=
  match s with
  | EmptyString => true
  | String c r => negb (isspace c) && no_space r
  end.

Definition is_word (s : string) : bool := truthy s && no_space s.

(** The fields a successful assessment carries, as the prompt of the judge
    lists them. *)
Definition assessment_fields : list string :=
  ["score"; "category"; "reasoning"; "risk_factors"; "protective_factors";
   "urgent_flags"].

Definition keys (v : json) : list string :=
  match v with
  | JObj d => map fst d
  | _ => []
  end.

Definition field (v : json) (k : string) : option json :=
  match v with
  | JObj d => assoc k d
  | _ => None
  end.

(** The number a judge result contributes to the fusion: its ['score'], or
    0 when the key is absent; [None] when it is not a number. *)
Definition model_score (llm : json) : option Q :=
  match llm with
  | JObj d =>
      match assoc "score" d with
      | None => Some 0
      | Some (JNum q) => Some q
      | Some (JBool b) => Some (if b then 1 else 0)
      | Some _ => None
      end
  | _ => None
  end.


(** The entry [hybrid_score] builds for one domain from the result of the
    rule scorer, the result of the judge and the number read from it. *)
Definition domain_entry (rule : Q * string * Details) (llm : json) (q : Q)
  : DomainRisk :=
  let u := fst (fst rule) * 0.4 + q * 0.6 in
  {| final_score := py_round u 3;
     final_category := RiskScorer.categorize u;
     rule_based := {| score := py_round (fst (fst rule)) 3;
                      category := snd (fst rule);
                      details := snd rule |};
     llm_based := llm |}.


(** The two retrieval queries of [generate_recommendation]. *)
Definition hiv_query (ra : RiskAssessment) : string :=
  "HIV risk " ++ final_category (hiv_risk ra) ++ " testing PrEP treatment".

Definition mh_query (ra : RiskAssessment) : string :=
  "mental health " ++ final_category (mental_health_risk ra)
  ++ " counseling treatment".

(** The risk factors of one domain as the prompt prints them. *)
Definition risk_factors_text (d : DomainRisk) : result string :=
  do listed <- py_get (llm_based d) "risk_factors"
                 (JArr [JStr "None identified"]);
  join_json ", " listed.

(** The recommendation whose three fields all hold [reason]-style text. *)
Definition recommendation (hiv mh plan : string) : json :=
  JObj [ ("hiv_recommendation", JStr hiv);
         ("mh_recommendation", JStr mh);
         ("integrated_plan", JStr plan) ].

Definition failed_recommendation (e : exn) : json :=
  recommendation ("Error generating recommendation: " ++ str_of_exn e)
                 ("Error generating recommendation: " ++ str_of_exn e)
                 ("Error generating plan: " ++ str_of_exn e).

(** The degraded assessment of the judge after the failure [e]. *)
Definition failed_assessment (e : exn) : json :=
  JObj [ ("score", JNum 0.0);
         ("category", JStr "ERROR");
         ("reasoning", JStr ("Analysis error: " ++ str_of_exn e));
         ("risk_factors", JArr []);
         ("protective_factors", JArr []);
         ("urgent_flags", JBool false) ].

(** ** Example inputs *)

Definition example_text : string :=
  "I had unprotected sex with multiple partners, worried about symptoms".

Definition example_conversation : Conversation := {|
  messages := [ {| timestamp := "2024-01-05 10:00"; role := "User";
                   text := example_text |} ];
  full_text := example_text;
  user_text := example_text;
  message_count := 1
|}.

(** A reply of the judge and the dictionary [json.loads] reads from it. *)
Definition example_reply : string :=
  "{" ++ dq ++ "score" ++ dq ++ ": 0.566, "
  ++ dq ++ "category" ++ dq ++ ": " ++ dq ++ "MEDIUM" ++ dq ++ ", "
  ++ dq ++ "reasoning" ++ dq ++ ": " ++ dq ++ "Exposure reported." ++ dq ++ ", "
  ++ dq ++ "risk_factors" ++ dq ++ ": [" ++ dq ++ "unprotected sex" ++ dq ++ "], "
  ++ dq ++ "protective_factors" ++ dq ++ ": [], "
  ++ dq ++ "urgent_flags" ++ dq ++ ": false}".

Definition example_assessment : json :=
  JObj [ ("score", JNum 0.566);
         ("category", JStr "MEDIUM");
         ("reasoning", JStr "Exposure reported.");
         ("risk_factors", JArr [JStr "unprotected sex"]);
         ("protective_factors", JArr []);
         ("urgent_flags", JBool false) ].

Definition example_client : OpenAI :=
  {| chat_completions_create := fun _ _ _ _ => Return example_reply |}.

Definition failing_client : OpenAI :=
  {| chat_completions_create := fun _ _ _ _ =>
       Raise (mk_exn "APITimeoutError" "Request timed out.") |}.

Definition example_lib : PyLib := {|
  re_sub_fence := fun s => s;
  json_loads := fun s =>
    if String.eqb s example_reply then Return example_assessment
    else Raise (mk_exn "JSONDecodeError" "Expecting value");
  str_of_float := fun _ => "0.7"
|}.

Definition example_scorer : RiskScorer.t :=
  {| RiskScorer.client := Some example_client |}.

Definition unconfigured_scorer : RiskScorer.t :=
  {| RiskScorer.client := None |}.

Definition example_risk : RiskAssessment := {|
  hiv_risk :=
    domain_entry
      (RiskScorer.rule_based_score example_text HIV_RISK_KEYWORDS
         HIV_SYMPTOM_PATTERNS) example_assessment 0.566;
  mental_health_risk :=
    domain_entry
      (RiskScorer.rule_based_score example_text MENTAL_HEALTH_KEYWORDS
         MH_SYMPTOM_PATTERNS) example_assessment 0.566
|}.

Definition example_chunks : list string :=
  ["HIV Testing: Universal testing recommended.";
   "PrEP: Recommended for HIV-negative individuals at substantial risk.";
   "Depression/Anxiety: Counseling and psychosocial support."].

(** A recommender whose retrieval works and whose model times out. *)
Definition example_recommender : RAGRecommender.t := {|
  RAGRecommender.client := Some failing_client;
  RAGRecommender.retrieve_relevant_chunks := fun _ _ => Return example_chunks
|}.

(** A configured recommender whose retrieval raises. *)
Definition broken_retrieval_recommender : RAGRecommender.t := {|
  RAGRecommender.client := Some example_client;
  RAGRecommender.retrieve_relevant_chunks := fun _ _ =>
    Raise (mk_exn "RuntimeError" "embedding failed")
|}.

(** A recommender without a model, whose retrieval would raise. *)
Definition unconfigured_recommender : RAGRecommender.t := {|
  RAGRecommender.client := None;
  RAGRecommender.retrieve_relevant_chunks := fun _ _ =>
    Raise (mk_exn "RuntimeError" "embedding failed")
|}.

(** The example conversation parsed from two messages: the same
    [full_text], other messages, user text and count. *)
Definition example_conversation_two_messages : Conversation := {|
  messages := [ {| timestamp := "2024-01-05 10:00"; role := "User";
                   text := "I had unprotected sex with multiple partners," |};
                {| timestamp := "2024-01-05 10:01"; role := "AI";
                   text := "worried about symptoms" |} ];
  full_text := example_text;
  user_text := "I had unprotected sex with multiple partners,";
  message_count := 2
|}.

Definition example_analyzer : ConversationAnalyzer.t := {|
  ConversationAnalyzer.risk_scorer := example_scorer;
  ConversationAnalyzer.recommender := example_recommender
|}.

Definition timeout_error : exn :=
  mk_exn "APITimeoutError" "Request timed out.".

(** ** data_loader.py: loading conversations *)

(** [s.split(sep)] for a separator that is not empty: the pieces between
    the occurrences of [sep], read from the left.  [skip] counts the
    characters of a separator still to pass over; [cur] is the piece read
    so far. *)
Fixpoint split_sep_from (sep : string) (skip : nat) (cur s : string)
  : list string :=
  match s with
  | EmptyString => [cur]
  | String c r =>
      match skip with
      | S k => split_sep_from sep k cur r
      | O =>
          if startswith sep s then
            cur :: split_sep_from sep (String.length sep - 1) EmptyString r
          else split_sep_from sep 0 (cur ++ String c EmptyString) r
      end
  end.

Definition split_sep (sep s : string) : list string :=
  split_sep_from sep 0 EmptyString s.

(** The longest prefix of [s] free of the character [c], and what
    follows it. *)
Fixpoint span_not (c : ascii) (s : string) : string * string :=
  match s with
  | EmptyString => (EmptyString, EmptyString)
  | String d r =>
      if Ascii.eqb d c then (EmptyString, s)
      else let (a, b) := span_not c r in (String d a, b)
  end.

(** [s] without the literal prefix [p], when it starts with it. *)
Fixpoint drop_prefix (p s : string) : option string :=
  match p, s with
  | EmptyString, _ => Some s
  | String _ _, EmptyString => None
  | String a p', String b s' =>
      if Ascii.eqb a b then drop_prefix p' s' else None
  end.

(** [User|AI] at the head of [s] *)
Definition match_role (s : string) : option (string * string) :=
  match drop_prefix "User" s with
  | Some r => Some ("User", r)
  | None =>
      match drop_prefix "AI" s with
      | Some r => Some ("AI", r)
      | None => None
      end
  end.

(** [re.match(r'\[([^\]]+)\] (User|AI): (.+)', line)] with its three
    groups: an opening bracket, a stamp of one or more characters other
    than the closing bracket, the closing bracket and a space, the role, a
    colon and a space, and one or more characters other than a newline. *)
Definition match_line (line : string) : option (string * string * string) :=
  match line with
  | String "[" r =>
      let (stamp, after_stamp) := span_not "]" r in
      if truthy stamp then
        match drop_prefix "] " after_stamp with
        | Some after_bracket =>
            match match_role after_bracket with
            | Some (who, after_role) =>
                match drop_prefix ": " after_role with
                | Some body =>
                    let said := fst (span_not (ascii_of_nat 10) body) in
                    if truthy said then Some (stamp, who, said) else None
                | None => None
                end
            | None => None
            end
        | None => None
        end
      else None
  | _ => None
  end.

Definition parse_messages (lines : list string) : list Message :=
  fold_left
    (fun messages line =>
       match match_line line with
       | Some (stamp, who, said) =>
           (messages ++ [ {| timestamp := stamp; role := who;
                            text := strip said |} ])%list
       | None => messages
       end)
    lines [].

Definition conversation_separator : string :=
  "========== Conversation ==========".

(** [load_conversations], from the content read from the file. *)
Definition load_conversations (content : string) : list Conversation :=
  let conv_blocks := split_sep conversation_separator content in
  fold_left
    (fun conversations block =>
       if truthy (strip block) then
         let lines := split_sep nl (strip block) in
         let messages := parse_messages lines in
         match messages with
         | [] => conversations
         | _ :: _ =>
             (conversations ++
                [ {| messages := messages;
                     full_text := join " " (map text messages);
                     user_text :=
                       join " "
                         (map text
                            (filter (fun m => String.eqb (role m) "User")
                                    messages));
                     message_count := Z.of_nat (List.length messages) |} ])%list
         end
       else conversations)
    conv_blocks [].

(** ** analyzer.py: the dataset *)

(** One result of [analyze_dataset]: the analysis with its
    ['conversation_id']. *)
Record DatasetResult : Type := mk_dataset_result {
  conversation_id : Z;
  analysis : Analysis
}.

(** One row of the summary table. *)
Record SummaryRow : Type := mk_summary_row {
  row_conversation_id : Z;
  row_message_count : Z;
  hiv_score : Q;
  hiv_category : string;
  mh_score : Q;
  mh_category : string;
  hiv_rule_score : Q;
  hiv_llm_score : json;
  mh_rule_score : Q;
  mh_llm_score : json
}.

Module Dataset.

(** The loop of [analyze_dataset]: [i] is the index [enumerate] gives. *)
Fixpoint analyze_each (self : ConversationAnalyzer.t) (lib : PyLib) (i : Z)
    (conversations : list Conversation) (results : list DatasetResult)
  : result (list DatasetResult) :=
  match conversations with
  | [] => Return results
  | conv :: rest =>
      do a <- ConversationAnalyzer.analyze_conversation self lib conv;
      analyze_each self lib (i + 1)%Z rest
        (results ++ [ {| conversation_id := (i + 1)%Z; analysis := a |} ])%list
  end.

(** [analyze_dataset], from the content of the conversations file; the
    progress lines it prints are left out. *)
Definition analyze_dataset (self : ConversationAnalyzer.t) (lib : PyLib)
    (content : string) (limit : option Z) : result (list DatasetResult) :=
  let conversations := load_conversations content in
  let conversations :=
    match limit with
    | None => conversations
    | Some l =>
        if (l =? 0)%Z then conversations else py_slice conversations 0 l
    end in
  analyze_each self lib 0 conversations [].

(** The rows [create_summary_dataframe] hands to the data frame. *)
Fixpoint create_summary_dataframe (results : list DatasetResult)
  : result (list SummaryRow) :=
  match results with
  | [] => Return []
  | r :: rest =>
      let ra := risk_assessment (analysis r) in
      do hiv_llm <- py_get (llm_based (hiv_risk ra)) "score" (JNum 0);
      do mh_llm <-
        py_get (llm_based (mental_health_risk ra)) "score" (JNum 0);
      do rows <- create_summary_dataframe rest;
      Return
        ({| row_conversation_id := conversation_id r;
            row_message_count :=
              summary_message_count (conversation (analysis r));
            hiv_score := final_score (hiv_risk ra);
            hiv_category := final_category (hiv_risk ra);
            mh_score := final_score (mental_health_risk ra);
            mh_category := final_category (mental_health_risk ra);
            hiv_rule_score := score (rule_based (hiv_risk ra));
            hiv_llm_score := hiv_llm;
            mh_rule_score := score (rule_based (mental_health_risk ra));
            mh_llm_score := mh_llm |} :: rows)
  end.

End Dataset.

(** ** Further notions used in the properties *)


(** The character [c] does not occur in [s]. *)
Fixpoint free_of (c : ascii) (s : string) : bool :=
  match s with
  | EmptyString => true
  | String d r => negb (Ascii.eqb d c) && free_of c r
  end.

(** A line of the conversations file, as [load_conversations] reads it. *)
Definition format_line (stamp who said : string) : string :=
  "[" ++ stamp ++ "] " ++ who ++ ": " ++ said.

(** What [load_conversations] guarantees of a message. *)
Definition well_formed_message (m : Message) : Prop :=
  (role m = "User" \/ role m = "AI")
  /\ truthy (timestamp m) = true
  /\ free_of "]" (timestamp m) = true
  /\ strip (text m) = text m.

(** The conversations [analyze_dataset] keeps for a given [limit]. *)
Definition selected (conversations : list Conversation) (limit : option Z)
  : list Conversation :=
  match limit with
  | None => conversations
  | Some l => if (l =? 0)%Z then conversations else py_slice conversations 0 l
  end.




(** The analyses [analyses] numbered from [i + 1] on. *)
Fixpoint numbered (i : Z) (analyses : list Analysis) : list DatasetResult :=
  match analyses with
  | [] => []
  | a :: rest =>
      {| conversation_id := (i + 1)%Z; analysis := a |}
      :: numbered (i + 1)%Z rest
  end.

(** A judge result whose risk factors are [null]. *)
Definition null_factors_assessment : json :=
  JObj [ ("score", JNum 0.566);
         ("category", JStr "MEDIUM");
         ("reasoning", JStr "Exposure reported.");
         ("risk_factors", JNull);
         ("protective_factors", JArr []);
         ("urgent_flags", JBool false) ].

Definition example_risk_null_factors : RiskAssessment := {|
  hiv_risk :=
    domain_entry
      (RiskScorer.rule_based_score example_text HIV_RISK_KEYWORDS
         HIV_SYMPTOM_PATTERNS) null_factors_assessment 0.566;
  mental_health_risk :=
    domain_entry
      (RiskScorer.rule_based_score example_text MENTAL_HEALTH_KEYWORDS
         MH_SYMPTOM_PATTERNS) example_assessment 0.566
|}.

(** A JSON number, or a boolean, which Python counts as one. *)
Definition is_number (v : json) : bool :=
  match v with
  | JNum _ | JBool _ => true
  | _ => false
  end.

(** [row] is the summary row of the result [r]. *)
Definition summarises (r : DatasetResult) (row : SummaryRow) : Prop :=
  let ra := risk_assessment (analysis r) in
  row_conversation_id row = conversation_id r
  /\ row_message_count row = summary_message_count (conversation (analysis r))
  /\ hiv_score row = final_score (hiv_risk ra)
  /\ hiv_category row = final_category (hiv_risk ra)
  /\ mh_score row = final_score (mental_health_risk ra)
  /\ mh_category row = final_category (mental_health_risk ra)
  /\ hiv_rule_score row = score (rule_based (hiv_risk ra))
  /\ mh_rule_score row = score (rule_based (mental_health_risk ra))
  /\ is_number (hiv_llm_score row) = true
  /\ is_number (mh_llm_score row) = true.

(** What [load_conversations] guarantees of a conversation: it has a
    message, its count is the number of messages, and its two texts are
    the message texts joined by single spaces. *)
Definition well_formed_conversation (c : Conversation) : Prop :=
  messages c <> []
  /\ message_count c = Z.of_nat (List.length (messages c))
  /\ full_text c = join " " (map text (messages c))
  /\ user_text c
     = join " "
         (map text
              (filter (fun m => String.eqb (role m) "User") (messages c)))
  /\ Forall well_formed_message (messages c).

(** ** More example inputs *)

Definition example_file : string :=
  join nl
    [ "========== Conversation ==========";
      "[2024-01-05 10:00] User: I had unprotected sex ";
      "a note between the messages";
      "[2024-01-05 10:01] AI: Are you worried about symptoms?";
      "========== Conversation ==========";
      "nothing to parse here";
      "========== Conversation ==========";
      "[2024-01-06 09:00] User: I feel hopeless";
      EmptyString ].

Definition unconfigured_analyzer : ConversationAnalyzer.t := {|
  ConversationAnalyzer.risk_scorer := unconfigured_scorer;
  ConversationAnalyzer.recommender := unconfigured_recommender
|}.


(** A library whose parser reads a JSON list from every reply. *)
Definition list_reply_lib : PyLib := {|
  re_sub_fence := fun s => s;
  json_loads := fun _ => Return (JArr [JNum 0.566]);
  str_of_float := fun _ => "0.7"
|}.

(** [n] copies of [s] in a row. *)
Fixpoint repeat_string (n : nat) (s : string) : string :=
  match n with
  | O => EmptyString
  | S k => s ++ repeat_string k s
  end.

(** Two texts of 803 characters that differ after the first 800. *)
Definition long_text_a : string := repeat_string 100 "and then " ++ "end".
Definition long_text_b : string := repeat_string 100 "and then " ++ "rest".

(** * Properties *)

Unset Implicit Arguments.

(** ** Results and numbers *)

Lemma py_min_Qmin (a b : Q) : py_min a b = Qmin a b.
Proof.
  unfold py_min, Qmin, GenericMinMax.gmin.
  rewrite <- (Qcompare_antisym a b).
  destruct (a ?= b); reflexivity.
Qed.

Lemma sum_ones_from {A : Type} (p : A -> bool) (xs : list A) (z : Z) :
  fold_left (fun acc x => if p x then (acc + 1)%Z else acc) xs z
  = (z + Z.of_nat (List.length (filter p xs)))%Z.
Proof.
  revert z; induction xs as [|x xs IH]; intros z; simpl.
  - lia.
  - rewrite IH. destruct (p x); simpl List.length; lia.
Qed.

Lemma sum_ones_length {A : Type} (p : A -> bool) (xs : list A) :
  sum_ones p xs = Z.of_nat (List.length (filter p xs)).
Proof. unfold sum_ones. rewrite sum_ones_from. lia. Qed.


Lemma Qmin_eq (a a' b b' : Q) : a == a' -> b == b' -> Qmin a b == Qmin a' b'.
Proof. intros Ha Hb. rewrite Ha, Hb. reflexivity. Qed.

Lemma match_count_nonneg (phrases : list string) (text : string) :
  (0 <= match_count phrases text)%Z.
Proof. unfold match_count. lia. Qed.

Lemma bonus_zero : spec_symptom_bonus 0 == 0.
Proof. reflexivity. Qed.

(** ** The rule scorer *)

(** The score of the code, with the counts written as [match_count]. *)
Lemma rule_score_match_count (text : string) (keywords : KeywordSet)
    (symptoms : list string) :
  fst (fst (RiskScorer.rule_based_score text keywords symptoms))
  == Qmin
       (spec_tier_base (match_count (high keywords) text)
                       (match_count (medium keywords) text)
                       (match_count (low keywords) text)
        + spec_symptom_bonus (match_count symptoms text))
       1.
Proof.
  unfold RiskScorer.rule_based_score. cbv zeta. cbn [fst snd].
  rewrite !sum_ones_length.
  fold (match_count (high keywords) text).
  fold (match_count (medium keywords) text).
  fold (match_count (low keywords) text).
  fold (match_count symptoms text).
  pose proof (match_count_nonneg symptoms text) as Hs.
  generalize dependent (match_count symptoms text).
  generalize (match_count (high keywords) text) as h.
  generalize (match_count (medium keywords) text) as m.
  generalize (match_count (low keywords) text) as l.
  intros l m h s Hs.
  rewrite !py_min_Qmin. unfold spec_tier_base.
  rewrite !Z.gtb_ltb.
  apply Qmin_eq; [|reflexivity].
  assert (Hb : (if (0 <? s)%Z
                then spec_symptom_bonus s else 0) == spec_symptom_bonus s).
  { destruct (0 <? s)%Z eqn:E; [reflexivity|].
    apply Z.ltb_ge in E. assert (s = 0%Z) as -> by lia. reflexivity. }
  rewrite <- Hb. unfold spec_symptom_bonus.
  destruct (0 <? h)%Z; [|destruct (0 <? m)%Z; [|destruct (0 <? l)%Z]];
    destruct (0 <? s)%Z;
    repeat rewrite (Qmult_comm (inject_Z _)); ring.
Qed.

Lemma rule_category_of_score (text : string) (keywords : KeywordSet)
    (symptoms : list string) :
  snd (fst (RiskScorer.rule_based_score text keywords symptoms))
  = spec_category
      (fst (fst (RiskScorer.rule_based_score text keywords symptoms))).
Proof. reflexivity. Qed.

Lemma spec_category_low (s : Q) : s < 0.4 -> spec_category s = "LOW".
Proof.
  intros H. unfold spec_category.
  destruct (Qle_bool 0.7 s) eqn:E1.
  { apply Qle_bool_iff in E1. lra. }
  destruct (Qle_bool 0.4 s) eqn:E2.
  { apply Qle_bool_iff in E2. lra. }
  reflexivity.
Qed.






(** ** Strings: concatenation, occurrence and letter case *)

Lemma sapp_assoc (a b c : string) : (a ++ b) ++ c = a ++ (b ++ c).
Proof. induction a as [|x a IH]; simpl; [reflexivity | now rewrite IH]. Qed.

Lemma sapp_nil_r (a : string) : a ++ EmptyString = a.
Proof. induction a as [|x a IH]; simpl; [reflexivity | now rewrite IH]. Qed.

Lemma startswith_spec (p s : string) :
  startswith p s = true <-> exists suf, s = p ++ suf.
Proof.
  revert s; induction p as [|c p IH]; intros s; simpl.
  - split; [intros _; now exists s | reflexivity].
  - destruct s as [|d s].
    + split; [discriminate | intros [suf H]; discriminate].
    + rewrite andb_true_iff, Ascii.eqb_eq, IH. split.
      * intros [-> [suf H]]. exists suf. now rewrite H.
      * intros [suf H]. inversion H. split; [reflexivity | now exists suf].
Qed.

Lemma str_in_occurs (p s : string) : str_in p s = true <-> occurs p s.
Proof.
  unfold occurs. induction s as [|d s IH]; simpl.
  - rewrite orb_false_r, startswith_spec. split.
    + intros [suf H]. now exists EmptyString, suf.
    + intros [pre [suf H]]. destruct pre; [now exists suf | discriminate].
  - rewrite orb_true_iff, startswith_spec, IH. split.
    + intros [[suf H] | [pre [suf H]]].
      * now exists EmptyString, suf.
      * exists (String d pre), suf. simpl. now rewrite H.
    + intros [pre [suf H]]. destruct pre as [|e pre].
      * left. now exists suf.
      * right. exists pre, suf. simpl in H. now inversion H.
Qed.

Lemma lower_app (a b : string) : lower (a ++ b) = lower a ++ lower b.
Proof. induction a as [|x a IH]; simpl; [reflexivity | now rewrite IH]. Qed.

Lemma lower_app_inv (t a b : string) :
  lower t = a ++ b ->
  exists ta tb, t = ta ++ tb /\ lower ta = a /\ lower tb = b.
Proof.
  revert t; induction a as [|x a IH]; intros t H; simpl in H.
  - now exists EmptyString, t.
  - destruct t as [|c t]; [discriminate|].
    simpl in H. inversion H as [[Hc Ht]].
    destruct (IH t Ht) as [ta [tb [E [Ea Eb]]]].
    exists (String c ta), tb. simpl. rewrite Ea. now subst.
Qed.

Lemma lower_char_not_upper (c : ascii) : is_upper (lower_char c) = false.
Proof. destruct c as [[] [] [] [] [] [] [] []]; reflexivity. Qed.

Lemma lower_char_idem (c : ascii) : lower_char (lower_char c) = lower_char c.
Proof.
  unfold lower_char at 1. now rewrite lower_char_not_upper.
Qed.

Lemma lower_idem (s : string) : lower (lower s) = lower s.
Proof.
  induction s as [|c s IH]; simpl; [reflexivity|].
  now rewrite lower_char_idem, IH.
Qed.

(** On a phrase already in lower case, occurrence in the lowercased text
    is occurrence ignoring case. *)
Lemma occurs_lower_iff (p text : string) :
  lower p = p -> (occurs p (lower text) <-> occurs_ignoring_case p text).
Proof.
  intros Hp. split.
  - intros [pre [suf H]].
    destruct (lower_app_inv _ _ _ H) as [ta [tb [E [Ea Eb]]]].
    destruct (lower_app_inv _ _ _ Eb) as [tm [ts [E' [Em Es]]]].
    exists ta, tm, ts. subst tb. split; [assumption|]. now rewrite Hp.
  - intros [pre [mid [suf [E H]]]].
    exists (lower pre), (lower suf).
    rewrite E, !lower_app, H, Hp. reflexivity.
Qed.

(** A phrase with a capital letter does not occur in a lowercased text. *)
Lemma occurs_lower_only_lower (p text : string) :
  occurs p (lower text) -> lower p = p.
Proof.
  intros [pre [suf H]].
  destruct (lower_app_inv _ _ _ H) as [ta [tb [E [Ea Eb]]]].
  destruct (lower_app_inv _ _ _ Eb) as [tm [ts [E' [Em Es]]]].
  rewrite <- Em. apply lower_idem.
Qed.

Lemma matches_spec (phrases : list string) (text p : string) :
  In p (filter (fun kw => str_in kw (lower text)) phrases)
  <-> In p phrases /\ occurs p (lower text).
Proof. rewrite filter_In, str_in_occurs. reflexivity. Qed.

(** C9, as the code has it: a phrase counts as matched exactly when it
    occurs, as written, in the lowercased text.  For a phrase already in
    lower case this is occurrence ignoring letter case; a phrase with a
    capital letter never matches; and texts that agree up to letter case
    get the same result. *)
Theorem keyword_matching_on_lowered_text (text : string)
    (keywords : KeywordSet) (symptoms : list string) (p : string) :
  let d := snd (RiskScorer.rule_based_score text keywords symptoms) in
  (In p (high_risk_matches d)
   <-> In p (high keywords) /\ occurs p (lower text))
  /\ (In p (medium_risk_matches d)
      <-> In p (medium keywords) /\ occurs p (lower text))
  /\ (In p (low_risk_matches d)
      <-> In p (low keywords) /\ occurs p (lower text))
  /\ (In p (symptom_matches d)
      <-> In p symptoms /\ occurs p (lower text))
  /\ (lower p = p ->
      (occurs p (lower text) <-> occurs_ignoring_case p text))
  /\ (lower p <> p -> ~ occurs p (lower text))
  /\ (forall text', lower text' = lower text ->
      RiskScorer.rule_based_score text' keywords symptoms
      = RiskScorer.rule_based_score text keywords symptoms).
Proof.
  cbv zeta. unfold RiskScorer.rule_based_score. cbn [snd fst
    high_risk_matches medium_risk_matches low_risk_matches symptom_matches].
  do 4 (split; [apply matches_spec|]).
  split; [apply occurs_lower_iff|].
  split.
  - intros N O. apply N. eapply occurs_lower_only_lower; eassumption.
  - intros text' E. rewrite E. reflexivity.
Qed.

(** C9 fails as stated: the phrase [STI] occurs in the text [sti] when
    case is ignored, yet the scorer reports no match and a score of 0; the
    same phrase in lower case is matched. *)
Lemma capital_phrase_is_not_matched :
  occurs_ignoring_case "STI" "sti"
  /\ high_risk_matches
       (snd (RiskScorer.rule_based_score "sti"
               {| high := ["STI"]; medium := []; low := [] |} []))
     = []
  /\ fst (fst (RiskScorer.rule_based_score "sti"
                 {| high := ["STI"]; medium := []; low := [] |} []))
     == 0
  /\ high_risk_matches
       (snd (RiskScorer.rule_based_score "sti"
               {| high := ["sti"]; medium := []; low := [] |} []))
     = ["sti"].
Proof.
  split.
  - exists EmptyString, "sti", EmptyString. split; reflexivity.
  - repeat split; reflexivity.
Qed.

(** ** Rounding *)









(** ** The judge and the fusion *)

Lemma llm_based_score_returns (self : RiskScorer.t) (lib : PyLib)
    (conversation_text risk_type : string) :
  exists v,
    RiskScorer.llm_based_score self lib conversation_text risk_type
    = Return v.
Proof.
  unfold RiskScorer.llm_based_score.
  destruct (RiskScorer.client self) as [c|]; [|eexists; reflexivity].
  destruct (chat_completions_create c LLM_MODEL 0.3 1000%Z
              (RiskScorer.llm_prompt conversation_text risk_type))
    as [content|e]; simpl; [|eexists; reflexivity].
  destruct (json_loads lib (re_sub_fence lib (strip content)));
    simpl; eexists; reflexivity.
Qed.

Lemma weighted_ok {A : Type} (llm : json) (q : Q) (k : Q -> result A) :
  model_score llm = Some q ->
  (do v <- py_get llm "score" (JNum 0); do w <- mul_float v 0.6; k w)
  = k (q * 0.6).
Proof.
  unfold model_score, py_get. destruct llm as [| | | | |d]; try discriminate.
  destruct (assoc "score" d) as [[| b | x | | |]|]; try discriminate;
    intros E; inversion E; subst; reflexivity.
Qed.

Lemma weighted_fail {A : Type} (llm : json) (k : Q -> result A) :
  model_score llm = None ->
  exists e,
    (do v <- py_get llm "score" (JNum 0); do w <- mul_float v 0.6; k w)
    = Raise e.
Proof.
  unfold model_score, py_get. destruct llm as [| | | | |d];
    try (intros _; eexists; reflexivity).
  destruct (assoc "score" d) as [[| b | x | | |]|]; try discriminate;
    intros _; eexists; reflexivity.
Qed.

(** [hybrid_score] returns exactly when both judge results carry a number
    (or no score at all), and then it returns the two domain entries. *)
Lemma hybrid_score_spec (self : RiskScorer.t) (lib : PyLib)
    (conv : Conversation) (r : RiskAssessment) :
  RiskScorer.hybrid_score self lib conv = Return r
  <-> exists h m qh qm,
      RiskScorer.llm_based_score self lib (full_text conv) "HIV" = Return h
      /\ RiskScorer.llm_based_score self lib (full_text conv) "Mental Health"
         = Return m
      /\ model_score h = Some qh
      /\ model_score m = Some qm
      /\ r = {| hiv_risk :=
                  domain_entry
                    (RiskScorer.rule_based_score (full_text conv)
                       HIV_RISK_KEYWORDS HIV_SYMPTOM_PATTERNS) h qh;
                mental_health_risk :=
                  domain_entry
                    (RiskScorer.rule_based_score (full_text conv)
                       MENTAL_HEALTH_KEYWORDS MH_SYMPTOM_PATTERNS) m qm |}.
Proof.
  unfold RiskScorer.hybrid_score.
  destruct (RiskScorer.rule_based_score (full_text conv)
              HIV_RISK_KEYWORDS HIV_SYMPTOM_PATTERNS) as [[hs hc] hd].
  destruct (RiskScorer.rule_based_score (full_text conv)
              MENTAL_HEALTH_KEYWORDS MH_SYMPTOM_PATTERNS) as [[ms mc] md].
  destruct (llm_based_score_returns self lib (full_text conv) "HIV")
    as [h Eh].
  destruct (llm_based_score_returns self lib (full_text conv) "Mental Health")
    as [m Em].
  rewrite Eh, Em. cbn [bind].
  destruct (model_score h) as [qh|] eqn:Qh.
  2:{ destruct (weighted_fail h
        (fun hiv_weighted =>
           do mh_model <- py_get m "score" (JNum 0);
           do mh_weighted <- mul_float mh_model 0.6;
           Return
             {| hiv_risk :=
                  {| final_score := py_round (hs * 0.4 + hiv_weighted) 3;
                     final_category :=
                       RiskScorer.categorize (hs * 0.4 + hiv_weighted);
                     rule_based := {| score := py_round hs 3;
                                      category := hc; details := hd |};
                     llm_based := h |};
                mental_health_risk :=
                  {| final_score := py_round (ms * 0.4 + mh_weighted) 3;
                     final_category :=
                       RiskScorer.categorize (ms * 0.4 + mh_weighted);
                     rule_based := {| score := py_round ms 3;
                                      category := mc; details := md |};
                     llm_based := m |} |}) Qh) as [e E].
      rewrite E. split; [discriminate|].
      intros [h' [m' [qh' [qm' [E1 [E2 [E3 _]]]]]]].
      inversion E1; subst h'. congruence. }
  rewrite (weighted_ok h qh _ Qh).
  destruct (model_score m) as [qm|] eqn:Qm.
  2:{ destruct (weighted_fail m
        (fun mh_weighted =>
           Return
             {| hiv_risk :=
                  {| final_score := py_round (hs * 0.4 + qh * 0.6) 3;
                     final_category :=
                       RiskScorer.categorize (hs * 0.4 + qh * 0.6);
                     rule_based := {| score := py_round hs 3;
                                      category := hc; details := hd |};
                     llm_based := h |};
                mental_health_risk :=
                  {| final_score := py_round (ms * 0.4 + mh_weighted) 3;
                     final_category :=
                       RiskScorer.categorize (ms * 0.4 + mh_weighted);
                     rule_based := {| score := py_round ms 3;
                                      category := mc; details := md |};
                     llm_based := m |} |}) Qm) as [e E].
      rewrite E. split; [discriminate|].
      intros [h' [m' [qh' [qm' [E1 [E2 [E3 [E4 _]]]]]]]].
      inversion E2; subst m'. congruence. }
  rewrite (weighted_ok m qm _ Qm).
  unfold domain_entry. cbn [fst snd]. split.
  - intros E. inversion E. exists h, m, qh, qm. auto.
  - intros [h' [m' [qh' [qm' [E1 [E2 [E3 [E4 E5]]]]]]]].
    inversion E1; inversion E2; subst h' m'.
    rewrite Qh in E3; rewrite Qm in E4.
    inversion E3; inversion E4; subst. reflexivity.
Qed.












(** C10: the scoring pipeline reads only [full_text].  Two conversations
    with the same [full_text] get the same judge prompts and the same
    result of [hybrid_score], whatever their messages, user text,
    timestamps and message counts; [analyze_conversation] then differs at
    most in the echoed message count. *)
Theorem scoring_depends_only_on_full_text (self : ConversationAnalyzer.t)
    (lib : PyLib) (c1 c2 : Conversation) :
  full_text c1 = full_text c2 ->
  (forall risk_type,
      RiskScorer.llm_prompt (full_text c1) risk_type
      = RiskScorer.llm_prompt (full_text c2) risk_type)
  /\ RiskScorer.hybrid_score (ConversationAnalyzer.risk_scorer self) lib c1
     = RiskScorer.hybrid_score (ConversationAnalyzer.risk_scorer self) lib c2
  /\ match ConversationAnalyzer.analyze_conversation self lib c1,
           ConversationAnalyzer.analyze_conversation self lib c2 with
     | Return a1, Return a2 =>
         risk_assessment a1 = risk_assessment a2
         /\ recommendations a1 = recommendations a2
         /\ text_preview (conversation a1) = text_preview (conversation a2)
         /\ summary_message_count (conversation a1) = message_count c1
         /\ summary_message_count (conversation a2) = message_count c2
     | Raise e1, Raise e2 => e1 = e2
     | _, _ => False
     end.
Proof.
  intros E.
  assert (H : RiskScorer.hybrid_score (ConversationAnalyzer.risk_scorer self)
                lib c1
              = RiskScorer.hybrid_score (ConversationAnalyzer.risk_scorer self)
                  lib c2).
  { unfold RiskScorer.hybrid_score. rewrite E. reflexivity. }
  split; [intros rt; rewrite E; reflexivity|].
  split; [exact H|].
  unfold ConversationAnalyzer.analyze_conversation.
  rewrite H, E.
  destruct (RiskScorer.hybrid_score _ lib c2) as [r|e]; cbn [bind];
    [|reflexivity].
  destruct (RAGRecommender.generate_recommendation _ lib r (full_text c2))
    as [v|e]; cbn [bind]; [|reflexivity].
  cbn. auto.
Qed.

(** ** Degraded results *)


(** C4, the defect: without a configured model, [llm_based_score] returns
    the UNKNOWN assessment with score 0, the reason and two empty lists,
    and this dictionary has no ['urgent_flags'] entry, so its fields are
    not those of a successful assessment, whereas the assessment returned
    after a failure carries ['urgent_flags'] false. *)
Theorem unconfigured_assessment_lacks_urgent_flags (lib : PyLib)
    (conversation_text risk_type : string) :
  exists v,
    RiskScorer.llm_based_score unconfigured_scorer lib conversation_text
      risk_type = Return v
    /\ field v "score" = Some (JNum 0.0)
    /\ field v "category" = Some (JStr "UNKNOWN")
    /\ field v "reasoning" = Some (JStr "API key not configured")
    /\ field v "risk_factors" = Some (JArr [])
    /\ field v "protective_factors" = Some (JArr [])
    /\ field v "urgent_flags" = None
    /\ keys v <> assessment_fields
    /\ (forall e,
          field (failed_assessment e) "urgent_flags" = Some (JBool false)
          /\ keys (failed_assessment e) = assessment_fields).
Proof.
  eexists. split; [reflexivity|].
  repeat (split; [reflexivity|]).
  split; [discriminate|].
  intros e. split; reflexivity.
Qed.

(** C5, as the code has it: without a configured model,
    [generate_recommendation] returns 'API not configured' in all three
    fields whatever the retriever would do; with a model, once both
    retrievals have returned and the risk factors are printed, it never
    raises: a failure of the completion call or of the JSON parser yields
    the recommendation whose three fields state that failure, and a parsed
    reply is returned as it is. *)
Theorem generate_recommendation_degrades (self : RAGRecommender.t)
    (lib : PyLib) (ra : RiskAssessment) (conversation_text : string) :
  (RAGRecommender.client self = None ->
   RAGRecommender.generate_recommendation self lib ra conversation_text
   = Return (recommendation "API not configured" "API not configured"
               "API not configured"))
  /\ (forall c hiv_context mh_context hiv_factors mh_factors,
         RAGRecommender.client self = Some c ->
         RAGRecommender.retrieve_relevant_chunks self (hiv_query ra) 3%Z
         = Return hiv_context ->
         RAGRecommender.retrieve_relevant_chunks self (mh_query ra) 3%Z
         = Return mh_context ->
         risk_factors_text (hiv_risk ra) = Return hiv_factors ->
         risk_factors_text (mental_health_risk ra) = Return mh_factors ->
         let reply :=
           chat_completions_create c LLM_MODEL 0.5 1500%Z
             (RAGRecommender.recommendation_prompt lib ra hiv_factors
                mh_factors hiv_context mh_context conversation_text) in
         let out :=
           RAGRecommender.generate_recommendation self lib ra
             conversation_text in
         (forall e, reply = Raise e -> out = Return (failed_recommendation e))
         /\ (forall content e,
                reply = Return content ->
                json_loads lib (re_sub_fence lib (strip content)) = Raise e ->
                out = Return (failed_recommendation e))
         /\ (forall content v,
                reply = Return content ->
                json_loads lib (re_sub_fence lib (strip content)) = Return v ->
                out = Return v)
         /\ exists v, out = Return v).
Proof.
  split.
  - intros Hc. unfold RAGRecommender.generate_recommendation.
    rewrite Hc. reflexivity.
  - intros c hc mc hf mf Hc Hh Hm Fh Fm reply out.
    assert (E : out
                = try_except
                    (do content <- reply;
                     do recommendations <-
                       json_loads lib (re_sub_fence lib (strip content));
                     Return recommendations)
                    (fun e => Return (failed_recommendation e))).
    { unfold out, RAGRecommender.generate_recommendation. rewrite Hc.
      fold (hiv_query ra). fold (mh_query ra). rewrite Hh, Hm. cbn [bind].
      unfold risk_factors_text in Fh, Fm.
      destruct (py_get (llm_based (hiv_risk ra)) "risk_factors"
                  (JArr [JStr "None identified"])) as [lh|]; [|discriminate].
      cbn [bind] in Fh |- *. rewrite Fh. cbn [bind].
      destruct (py_get (llm_based (mental_health_risk ra)) "risk_factors"
                  (JArr [JStr "None identified"])) as [lm|]; [|discriminate].
      cbn [bind] in Fm |- *. rewrite Fm. cbn [bind]. reflexivity. }
    rewrite E. clear E.
    split; [intros e R; rewrite R; reflexivity|].
    split; [intros content e R J; rewrite R; cbn [bind]; rewrite J;
            reflexivity|].
    split; [intros content v R J; rewrite R; cbn [bind]; rewrite J;
            reflexivity|].
    destruct reply as [content|e]; cbn [bind try_except];
      [|eexists; reflexivity].
    destruct (json_loads lib (re_sub_fence lib (strip content)));
      cbn [bind try_except]; eexists; reflexivity.
Qed.

(** C5 fails as stated: with a configured model and a retriever that
    raises, [generate_recommendation] raises the retriever's exception
    instead of returning a recommendation. *)
Lemma retrieval_failure_is_raised :
  RAGRecommender.generate_recommendation broken_retrieval_recommender
    example_lib example_risk example_text
  = Raise (mk_exn "RuntimeError" "embedding failed").
Proof. reflexivity. Qed.

(** ** Words: [split] and [join] *)

Lemma no_space_app (a b : string) :
  no_space (a ++ b) = no_space a && no_space b.
Proof.
  induction a as [|c a IH]; simpl; [reflexivity|].
  rewrite IH, andb_assoc. reflexivity.
Qed.

Lemma truthy_app (a b : string) : truthy a = true -> truthy (a ++ b) = true.
Proof. destruct a; [discriminate | reflexivity]. Qed.

Lemma flush_words (cur : string) :
  no_space cur = true -> Forall (fun w => is_word w = true) (flush cur).
Proof.
  intros H. destruct cur as [|c cur]; simpl; constructor; [|constructor].
  unfold is_word. simpl truthy. exact H.
Qed.

Lemma split_from_words (s cur : string) :
  no_space cur = true ->
  Forall (fun w => is_word w = true) (split_from cur s).
Proof.
  revert cur; induction s as [|c s IH]; intros cur H; simpl.
  - apply flush_words, H.
  - destruct (isspace c) eqn:E.
    + apply Forall_app. split; [apply flush_words, H | apply IH; reflexivity].
    + apply IH. rewrite no_space_app, H. simpl. rewrite E. reflexivity.
Qed.

Lemma split_words (s : string) : Forall (fun w => is_word w = true) (split s).
Proof. apply split_from_words. reflexivity. Qed.

Lemma split_from_word (w cur s : string) :
  no_space w = true -> split_from cur (w ++ s) = split_from (cur ++ w) s.
Proof.
  revert cur; induction w as [|c w IH]; intros cur H; simpl.
  - rewrite sapp_nil_r. reflexivity.
  - simpl in H. apply andb_true_iff in H. destruct H as [Hc Hw].
    apply negb_true_iff in Hc. rewrite Hc, (IH _ Hw), sapp_assoc.
    reflexivity.
Qed.

Lemma flush_word (w : string) : is_word w = true -> flush w = [w].
Proof. destruct w; [discriminate | reflexivity]. Qed.

(** Splitting a chunk gives back the words it was joined from. *)
Lemma split_join (ws : list string) :
  Forall (fun w => is_word w = true) ws -> split (join " " ws) = ws.
Proof.
  induction 1 as [|w rest Hw Hrest IH]; [reflexivity|].
  pose proof Hw as Hw'. unfold is_word in Hw'.
  apply andb_true_iff in Hw'. destruct Hw' as [_ Hn].
  unfold split in *. destruct rest as [|w2 rest].
  - simpl join. rewrite <- (sapp_nil_r w) at 1.
    rewrite (split_from_word w _ _ Hn). simpl. apply flush_word, Hw.
  - change (join " " (w :: w2 :: rest))
      with (w ++ String " " (join " " (w2 :: rest))).
    rewrite (split_from_word w _ _ Hn). simpl append.
    change (split_from w (String " " (join " " (w2 :: rest))))
      with ((flush w ++ split_from EmptyString (join " " (w2 :: rest)))%list).
    rewrite IH, (flush_word _ Hw). reflexivity.
Qed.

Lemma join_truthy (ws : list string) :
  ws <> [] -> Forall (fun w => is_word w = true) ws ->
  truthy (join " " ws) = true.
Proof.
  intros N H. destruct H as [|w rest Hw Hrest]; [congruence|].
  unfold is_word in Hw. apply andb_true_iff in Hw. destruct Hw as [Ht _].
  destruct rest; [exact Ht | apply truthy_app, Ht].
Qed.

Lemma Forall_firstn {A : Type} (P : A -> Prop) (n : nat) (l : list A) :
  Forall P l -> Forall P (firstn n l).
Proof.
  intros H. revert n. induction H; intros [|n]; simpl; constructor; auto.
Qed.

Lemma Forall_skipn {A : Type} (P : A -> Prop) (n : nat) (l : list A) :
  Forall P l -> Forall P (skipn n l).
Proof.
  intros H. revert n. induction H; intros [|n]; simpl; auto.
Qed.

Lemma window_words (words : list string) (width step k : nat) :
  Forall (fun w => is_word w = true) words ->
  Forall (fun w => is_word w = true) (window words width step k).
Proof. intros H. apply Forall_firstn, Forall_skipn, H. Qed.

(** ** Ranges, slices and windows *)

Open Scope nat_scope.

Lemma window_count_spec (n step k : nat) :
  0 < step -> (k < window_count n step <-> k * step < n).
Proof.
  intros Hs. unfold window_count.
  pose proof (Nat.div_mod_eq (n + step - 1) step) as D.
  pose proof (Nat.mod_upper_bound (n + step - 1) step) as M.
  split; intros H; nia.
Qed.

Lemma range_up_windows (fuel : nat) (n step k0 : nat) :
  0 < step -> n - k0 * step <= fuel ->
  range_up fuel (Z.of_nat (k0 * step)) (Z.of_nat n) (Z.of_nat step)
  = map (fun k => Z.of_nat (k * step))
        (seq k0 (window_count n step - k0)).
Proof.
  intros Hs. revert k0. induction fuel as [|fuel IH]; intros k0 Hf.
  - assert (~ k0 < window_count n step) as N.
    { rewrite window_count_spec by assumption. lia. }
    replace (window_count n step - k0) with 0 by lia. reflexivity.
  - simpl range_up. destruct (Z.ltb_spec (Z.of_nat (k0 * step)) (Z.of_nat n))
      as [L|G].
    + assert (k0 < window_count n step) as W.
      { rewrite window_count_spec by assumption. lia. }
      replace (window_count n step - k0)
        with (S (window_count n step - S k0)) by lia.
      simpl seq. simpl map. f_equal.
      replace (Z.of_nat (k0 * step) + Z.of_nat step)%Z
        with (Z.of_nat (S k0 * step)) by lia.
      apply IH. simpl. lia.
    + assert (~ k0 < window_count n step) as N.
      { rewrite window_count_spec by assumption. lia. }
      replace (window_count n step - k0) with 0 by lia. reflexivity.
Qed.

Lemma py_range_windows (n step : nat) :
  0 < step ->
  py_range 0 (Z.of_nat n) (Z.of_nat step)
  = Return (map (fun k => Z.of_nat (k * step))
                (seq 0 (window_count n step))).
Proof.
  intros Hs. unfold py_range.
  destruct (Z.eqb_spec (Z.of_nat step) 0); [lia|].
  destruct (Z.ltb_spec 0 (Z.of_nat step)); [|lia].
  f_equal. rewrite (range_up_windows _ n step 0 Hs) by (simpl; lia).
  rewrite Nat.sub_0_r. reflexivity.
Qed.

Lemma firstn_clip {A : Type} (w : nat) (l : list A) :
  firstn (Nat.min w (List.length l)) l = firstn w l.
Proof.
  destruct (Nat.le_gt_cases w (List.length l)) as [H|H].
  - rewrite Nat.min_l by assumption. reflexivity.
  - rewrite Nat.min_r by lia. rewrite firstn_all, firstn_all2 by lia.
    reflexivity.
Qed.

(** Inside the text a slice of [chunk_size] words is the window. *)
Lemma py_slice_window (words : list string) (width step k : nat) :
  k * step < List.length words ->
  py_slice words (Z.of_nat (k * step)) (Z.of_nat (k * step) + Z.of_nat width)
  = window words width step k.
Proof.
  intros H. unfold py_slice, slice_bound, window.
  destruct (Z.ltb_spec (Z.of_nat (k * step)) 0); [lia|].
  destruct (Z.ltb_spec (Z.of_nat (k * step) + Z.of_nat width) 0); [lia|].
  rewrite (Z.min_l (Z.of_nat (k * step))) by lia.
  rewrite Nat2Z.id.
  rewrite <- (firstn_clip width). rewrite length_skipn.
  f_equal. lia.
Qed.

Lemma fold_chunks (f : Z -> string) (idx : list Z) (acc : list string) :
  (forall i, In i idx -> truthy (f i) = true) ->
  fold_left
    (fun chunks i => if truthy (f i) then (chunks ++ [f i])%list else chunks)
    idx acc
  = (acc ++ map f idx)%list.
Proof.
  revert acc; induction idx as [|i idx IH]; intros acc H; simpl.
  - rewrite app_nil_r. reflexivity.
  - rewrite (H i) by (left; reflexivity).
    rewrite IH by (intros j Hj; apply H; right; exact Hj).
    rewrite <- app_assoc. reflexivity.
Qed.

Lemma window_length (words : list string) (width step k : nat) :
  List.length (window words width step k)
  = Nat.min width (List.length words - k * step).
Proof. unfold window. rewrite length_firstn, length_skipn. reflexivity. Qed.

Lemma window_nonempty (words : list string) (width step k : nat) :
  0 < width -> k * step < List.length words ->
  window words width step k <> [].
Proof.
  intros Hw Hk E. apply (f_equal (@List.length string)) in E.
  rewrite window_length in E. simpl in E. lia.
Qed.

(** For a positive step, [chunk_text] is the list of joined windows. *)
Lemma chunk_text_spec (text : string) (width step : nat) :
  0 < step -> 0 < width ->
  chunk_text text (Z.of_nat width) (Z.of_nat width - Z.of_nat step)
  = Return (spec_chunks (split text) width step).
Proof.
  intros Hs Hw. unfold chunk_text.
  replace (Z.of_nat width - (Z.of_nat width - Z.of_nat step))%Z
    with (Z.of_nat step) by lia.
  rewrite (py_range_windows _ _ Hs). cbn [bind]. f_equal.
  rewrite (fold_chunks
             (fun i => join " " (py_slice (split text) i (i + Z.of_nat width)))).
  - cbn [app]. rewrite map_map. unfold spec_chunks.
    apply map_ext_in. intros k Hk. apply in_seq in Hk.
    rewrite py_slice_window; [reflexivity|].
    apply window_count_spec; [assumption | lia].
  - intros i Hi. apply in_map_iff in Hi. destruct Hi as [k [<- Hk]].
    apply in_seq in Hk.
    assert (k * step < List.length (split text)) as Hlt.
    { apply window_count_spec; [assumption | lia]. }
    rewrite py_slice_window by assumption.
    apply join_truthy.
    + apply window_nonempty; assumption.
    + apply window_words, split_words.
Qed.

(** The first [step] words of the successive windows, put end to end,
    are the whole list. *)
Lemma concat_windows {A : Type} (step c : nat) (xs : list A) :
  0 < step -> List.length xs <= c * step ->
  List.concat (map (fun k => firstn step (skipn (k * step) xs)) (seq 0 c)) = xs.
Proof.
  intros Hs. revert xs. induction c as [|c IH]; intros xs H.
  - destruct xs; [reflexivity | simpl in H; lia].
  - simpl seq. rewrite <- seq_shift, map_cons, map_map. simpl List.concat.
    rewrite (map_ext _ (fun k => firstn step (skipn (k * step) (skipn step xs)))).
    + rewrite IH.
      * apply firstn_skipn.
      * rewrite length_skipn. simpl in H. lia.
    + intros k. rewrite skipn_skipn. f_equal. f_equal. simpl. lia.
Qed.

Lemma window_covers (words : list string) (width step j : nat) :
  0 < step -> step <= width -> j < List.length words ->
  j / step < window_count (List.length words) step
  /\ nth_error (window words width step (j / step)) (j mod step)
     = nth_error words j.
Proof.
  intros Hs Hw Hj.
  pose proof (Nat.div_mod_eq j step) as D.
  pose proof (Nat.mod_upper_bound j step) as M.
  split.
  - apply window_count_spec; [assumption | nia].
  - unfold window. rewrite nth_error_firstn.
    destruct (Nat.ltb_spec (j mod step) width); [|lia].
    rewrite nth_error_skipn. f_equal. nia.
Qed.

(** C6: for every text and every [0 <= overlap < chunk_size], [chunk_text]
    returns the windows of the word sequence that start at the successive
    multiples of [chunk_size - overlap], each joined by single spaces and
    holding at most [chunk_size] words in order, the last partial window
    included; every chunk splits back into its window, every word of the
    text lies in a chunk, and the first [chunk_size - overlap] words of
    the chunks, put end to end, are the original word sequence. *)
Theorem chunk_text_windows (text : string) (chunk_size overlap : Z) :
  (0 <= overlap < chunk_size)%Z ->
  let words := split text in
  let width := Z.to_nat chunk_size in
  let step := Z.to_nat (chunk_size - overlap) in
  exists chunks,
    chunk_text text chunk_size overlap = Return chunks
    /\ chunks = spec_chunks words width step
    /\ map split chunks
       = map (window words width step)
             (seq 0 (window_count (List.length words) step))
    /\ Forall (fun c => 0 < List.length (split c) <= width) chunks
    /\ (forall j, j < List.length words ->
        exists c, nth_error chunks (j / step) = Some c
                  /\ nth_error (split c) (j mod step) = nth_error words j)
    /\ List.concat (map (fun c => firstn step (split c)) chunks) = words.
Proof.
  intros H words width step.
  assert (Hs : 0 < step) by (unfold step; lia).
  assert (Hw : 0 < width) by (unfold width; lia).
  assert (Hsw : step <= width) by (unfold step, width; lia).
  exists (spec_chunks words width step).
  assert (Hsplit : forall k,
             split (join " " (window words width step k))
             = window words width step k).
  { intros k. apply split_join, window_words, split_words. }
  assert (Hmap : map split (spec_chunks words width step)
                 = map (window words width step)
                       (seq 0 (window_count (List.length words) step))).
  { unfold spec_chunks. rewrite map_map. apply map_ext. exact Hsplit. }
  split.
  { replace chunk_size with (Z.of_nat width) by (unfold width; lia).
    replace overlap with (Z.of_nat width - Z.of_nat step)%Z
      by (unfold width, step; lia).
    apply chunk_text_spec; assumption. }
  split; [reflexivity|].
  split; [exact Hmap|].
  split.
  { unfold spec_chunks. apply Forall_forall. intros c Hc.
    apply in_map_iff in Hc. destruct Hc as [k [<- Hk]]. apply in_seq in Hk.
    rewrite Hsplit, window_length.
    assert (k * step < List.length words)
      by (apply window_count_spec; [assumption | lia]).
    lia. }
  split.
  { intros j Hj.
    destruct (window_covers words width step j Hs Hsw Hj) as [Hk Hn].
    exists (join " " (window words width step (j / step))). split.
    - unfold spec_chunks.
      rewrite nth_error_map, nth_error_seq.
      destruct (Nat.ltb_spec (j / step)
                  (window_count (List.length words) step)); [|lia].
      reflexivity.
    - rewrite Hsplit. exact Hn. }
  { rewrite <- (map_map split (firstn step)), Hmap, map_map.
    rewrite (map_ext _ (fun k => firstn step (skipn (k * step) words))).
    - apply concat_windows; [assumption|].
      destruct (Nat.le_gt_cases (List.length words)
                  (window_count (List.length words) step * step))
        as [L|G]; [exact L|].
      apply window_count_spec in G; [lia | assumption].
    - intros k. unfold window. rewrite firstn_firstn.
      rewrite Nat.min_l by assumption. reflexivity. }
Qed.

(** C7, as the code has it: with [overlap = chunk_size] the step of the
    range is zero and [chunk_text] raises [ValueError], for every text;
    with [overlap > chunk_size] the range is empty and [chunk_text]
    returns the empty list, for every text. *)
Theorem chunk_text_overlap_at_least_size (text : string)
    (chunk_size overlap : Z) :
  (overlap = chunk_size ->
   chunk_text text chunk_size overlap
   = Raise (mk_exn "ValueError" "range() arg 3 must not be zero"))
  /\ ((chunk_size < overlap)%Z ->
      chunk_text text chunk_size overlap = Return []).
Proof.
  unfold chunk_text, py_range. split.
  - intros ->. rewrite Z.sub_diag. reflexivity.
  - intros H.
    destruct (Z.eqb_spec (chunk_size - overlap) 0); [lia|].
    destruct (Z.ltb_spec 0 (chunk_size - overlap)); [lia|].
    replace (Z.to_nat (0 - Z.of_nat (List.length (split text)))) with 0
      by lia.
    reflexivity.
Qed.

(** C7 fails as stated: on the text [a b c] with [chunk_size = 2] and
    [overlap = 3], [chunk_text] raises nothing and returns the empty
    list. *)
Lemma chunk_text_returns_empty_on_large_overlap :
  split "a b c" = ["a"; "b"; "c"]
  /\ chunk_text "a b c" 2 3 = Return [].
Proof. split; reflexivity. Qed.

(** ** The theorems at the example inputs *)

Open Scope Q_scope.



Lemma keyword_matching_on_lowered_text_witness :
  lower "sti" = "sti"
  /\ (occurs "sti" (lower "My STI test")
      <-> occurs_ignoring_case "sti" "My STI test").
Proof.
  split; [reflexivity|].
  exact (proj1 (proj2 (proj2 (proj2 (proj2
           (keyword_matching_on_lowered_text "My STI test"
              HIV_RISK_KEYWORDS HIV_SYMPTOM_PATTERNS "sti")))))
           eq_refl).
Defined.



Lemma scoring_depends_only_on_full_text_witness :
  full_text example_conversation
  = full_text example_conversation_two_messages
  /\ RiskScorer.hybrid_score example_scorer example_lib example_conversation
     = RiskScorer.hybrid_score example_scorer example_lib
         example_conversation_two_messages.
Proof.
  split; [reflexivity|].
  exact (proj1 (proj2 (scoring_depends_only_on_full_text example_analyzer
                         example_lib example_conversation
                         example_conversation_two_messages eq_refl))).
Defined.

Lemma generate_recommendation_degrades_witness :
  RAGRecommender.client unconfigured_recommender = None
  /\ RAGRecommender.generate_recommendation unconfigured_recommender
       example_lib example_risk example_text
     = Return (recommendation "API not configured" "API not configured"
                 "API not configured")
  /\ RAGRecommender.client example_recommender = Some failing_client
  /\ risk_factors_text (hiv_risk example_risk) = Return "unprotected sex"
  /\ RAGRecommender.generate_recommendation example_recommender example_lib
       example_risk example_text
     = Return (failed_recommendation timeout_error).
Proof.
  split; [reflexivity|].
  split.
  { exact (proj1 (generate_recommendation_degrades unconfigured_recommender
                    example_lib example_risk example_text) eq_refl). }
  split; [reflexivity|]. split; [reflexivity|].
  exact (proj1 (proj2 (generate_recommendation_degrades example_recommender
                         example_lib example_risk example_text)
                  failing_client example_chunks example_chunks
                  "unprotected sex" "unprotected sex"
                  eq_refl eq_refl eq_refl eq_refl eq_refl)
           timeout_error eq_refl).
Defined.

Lemma chunk_text_windows_witness :
  (0 <= 1 < 3)%Z
  /\ exists chunks,
      chunk_text "a b c d e f g" 3 1 = Return chunks
      /\ chunks = ["a b c"; "c d e"; "e f g"; "g"].
Proof.
  assert (H : (0 <= 1 < 3)%Z) by lia.
  split; [exact H|].
  destruct (chunk_text_windows "a b c d e f g" 3 1 H) as [chunks [E [S _]]].
  exists chunks. split; [exact E | exact S].
Defined.

Lemma chunk_text_overlap_at_least_size_witness :
  chunk_text "a b c" 2 2
  = Raise (mk_exn "ValueError" "range() arg 3 must not be zero")
  /\ (2 < 3)%Z
  /\ chunk_text "a b c" 2 3 = Return [].
Proof.
  assert (H : (2 < 3)%Z) by lia.
  split.
  { exact (proj1 (chunk_text_overlap_at_least_size "a b c" 2 2) eq_refl). }
  split; [exact H|].
  exact (proj2 (chunk_text_overlap_at_least_size "a b c" 2 3) H).
Defined.

(** * Further properties of the sources *)

(** ** The rule scorer: range and tiers *)

Lemma tier_base_nonneg (h m l : Z) :
  (0 <= h)%Z -> (0 <= m)%Z -> (0 <= l)%Z -> 0 <= spec_tier_base h m l.
Proof.
  intros Hh Hm Hl. unfold spec_tier_base.
  rewrite Zle_Qle in Hh, Hm, Hl. change (inject_Z 0) with 0 in *.
  destruct (0 <? h)%Z; [|destruct (0 <? m)%Z; [|destruct (0 <? l)%Z]]; lra.
Qed.

Lemma symptom_bonus_bounds (s : Z) :
  (0 <= s)%Z -> 0 <= spec_symptom_bonus s <= 0.3.
Proof.
  intros Hs. unfold spec_symptom_bonus. split.
  - rewrite Zle_Qle in Hs. change (inject_Z 0) with 0 in Hs.
    apply Q.min_glb; lra.
  - apply Q.le_min_r.
Qed.

Lemma rule_score_bounds (text : string) (keywords : KeywordSet)
    (symptoms : list string) :
  0 <= fst (fst (RiskScorer.rule_based_score text keywords symptoms)) <= 1.
Proof.
  rewrite rule_score_match_count. split.
  - apply Q.min_glb; [|lra].
    pose proof (tier_base_nonneg _ _ _
                  (match_count_nonneg (high keywords) text)
                  (match_count_nonneg (medium keywords) text)
                  (match_count_nonneg (low keywords) text)).
    pose proof (symptom_bonus_bounds _ (match_count_nonneg symptoms text)).
    lra.
  - apply Q.le_min_r.
Qed.

(** X1: the rule score always lies between 0 and 1, and the rule category
    is one of HIGH, MEDIUM and LOW. *)
Theorem rule_score_in_unit_interval (text : string) (keywords : KeywordSet)
    (symptoms : list string) :
  0 <= fst (fst (RiskScorer.rule_based_score text keywords symptoms)) <= 1
  /\ (snd (fst (RiskScorer.rule_based_score text keywords symptoms)) = "HIGH"
      \/ snd (fst (RiskScorer.rule_based_score text keywords symptoms))
         = "MEDIUM"
      \/ snd (fst (RiskScorer.rule_based_score text keywords symptoms))
         = "LOW").
Proof.
  split; [apply rule_score_bounds|].
  rewrite rule_category_of_score. unfold spec_category.
  destruct (Qle_bool 0.7 _); [left; reflexivity|].
  destruct (Qle_bool 0.4 _); [right; left | right; right]; reflexivity.
Qed.


Lemma match_count_zero (phrases : list string) (text : string) :
  (forall p, In p phrases -> ~ occurs p (lower text)) ->
  match_count phrases text = 0%Z.
Proof.
  intros H. unfold match_count.
  destruct (filter (fun kw => str_in kw (lower text)) phrases) as [|p l] eqn:E;
    [reflexivity|].
  assert (Hp : In p (filter (fun kw => str_in kw (lower text)) phrases))
    by (rewrite E; left; reflexivity).
  apply matches_spec in Hp. destruct Hp as [Hin Hocc].
  destruct (H p Hin Hocc).
Qed.


(** X3: when no phrase of any tier occurs in the lowercased text, the rule
    score is the symptom bonus alone, at most 0.3, and the rule category
    is LOW however many symptoms match. *)
Theorem no_keyword_match_is_low (text : string) (keywords : KeywordSet)
    (symptoms : list string) :
  (forall p,
      In p (high keywords) \/ In p (medium keywords) \/ In p (low keywords) ->
      ~ occurs p (lower text)) ->
  fst (fst (RiskScorer.rule_based_score text keywords symptoms))
  == spec_symptom_bonus (match_count symptoms text)
  /\ fst (fst (RiskScorer.rule_based_score text keywords symptoms)) <= 0.3
  /\ snd (fst (RiskScorer.rule_based_score text keywords symptoms)) = "LOW".
Proof.
  intros H.
  pose proof (symptom_bonus_bounds _ (match_count_nonneg symptoms text)) as B.
  assert (E : fst (fst (RiskScorer.rule_based_score text keywords symptoms))
              == spec_symptom_bonus (match_count symptoms text)).
  { rewrite rule_score_match_count.
    rewrite !match_count_zero by (intros p Hp; apply H; tauto).
    change (spec_tier_base 0 0 0) with 0.
    rewrite Qplus_0_l. apply Q.min_l. lra. }
  split; [exact E|]. split; [lra|].
  rewrite rule_category_of_score. apply spec_category_low. lra.
Qed.

(** X4: the highest matching tier alone sets the base score.  When a
    high-tier phrase occurs, the medium and low tiers do not change the
    score; when none does but a medium-tier phrase occurs, the low tier
    does not change it. *)
Theorem highest_tier_wins (text : string) (keywords : KeywordSet)
    (symptoms : list string) :
  ((0 < match_count (high keywords) text)%Z ->
   forall other_medium other_low,
     fst (fst (RiskScorer.rule_based_score text keywords symptoms))
     == fst (fst (RiskScorer.rule_based_score text
                    {| high := high keywords; medium := other_medium;
                       low := other_low |} symptoms)))
  /\ (match_count (high keywords) text = 0%Z ->
      (0 < match_count (medium keywords) text)%Z ->
      forall other_low,
        fst (fst (RiskScorer.rule_based_score text keywords symptoms))
        == fst (fst (RiskScorer.rule_based_score text
                       {| high := high keywords; medium := medium keywords;
                          low := other_low |} symptoms))).
Proof.
  split.
  - intros Hh om ol. rewrite !rule_score_match_count. cbn [high medium low].
    unfold spec_tier_base.
    destruct (Z.ltb_spec 0 (match_count (high keywords) text)); [|lia].
    reflexivity.
  - intros Hh Hm ol. rewrite !rule_score_match_count. cbn [high medium low].
    unfold spec_tier_base. rewrite Hh. cbn [Z.ltb Z.compare].
    destruct (Z.ltb_spec 0 (match_count (medium keywords) text)); [|lia].
    reflexivity.
Qed.

(** ** The rule scorer: rounding, growing texts, the empty text *)















Lemma occurs_in_empty (p : string) : occurs p EmptyString <-> p = EmptyString.
Proof.
  split.
  - intros [pre [suf E]]. destruct pre; [|discriminate].
    destruct p; [reflexivity | discriminate].
  - intros ->. exists EmptyString, EmptyString. reflexivity.
Qed.

Lemma matches_of_empty_text (phrases : list string) (p : string) :
  In p (filter (fun kw => str_in kw (lower EmptyString)) phrases)
  <-> In p phrases /\ p = EmptyString.
Proof. rewrite matches_spec. simpl lower. rewrite occurs_in_empty. tauto. Qed.

(** X7: on the empty text the phrases reported as matched are exactly the
    empty phrases of the lists; when no list holds an empty phrase, the
    empty text scores 0 with the category LOW. *)
Theorem empty_text_matches_only_empty_phrases (keywords : KeywordSet)
    (symptoms : list string) :
  let r := RiskScorer.rule_based_score EmptyString keywords symptoms in
  (forall p, In p (high_risk_matches (snd r))
             <-> In p (high keywords) /\ p = EmptyString)
  /\ (forall p, In p (medium_risk_matches (snd r))
                <-> In p (medium keywords) /\ p = EmptyString)
  /\ (forall p, In p (low_risk_matches (snd r))
                <-> In p (low keywords) /\ p = EmptyString)
  /\ (forall p, In p (symptom_matches (snd r))
                <-> In p symptoms /\ p = EmptyString)
  /\ (~ In EmptyString (high keywords) ->
      ~ In EmptyString (medium keywords) ->
      ~ In EmptyString (low keywords) ->
      ~ In EmptyString symptoms ->
      fst (fst r) == 0 /\ snd (fst r) = "LOW").
Proof.
  cbv zeta.
  do 4 (split; [intros p; apply matches_of_empty_text|]).
  intros Nh Nm Nl Ns.
  assert (Z0 : forall phrases,
             ~ In EmptyString phrases ->
             match_count phrases EmptyString = 0%Z).
  { intros phrases N. apply match_count_zero. intros p Hp Ho.
    simpl lower in Ho. apply occurs_in_empty in Ho. subst p. exact (N Hp). }
  assert (E : fst (fst (RiskScorer.rule_based_score EmptyString keywords
                          symptoms)) == 0).
  { rewrite rule_score_match_count, !Z0 by assumption. reflexivity. }
  split; [exact E|].
  rewrite rule_category_of_score. apply spec_category_low. rewrite E.
  reflexivity.
Qed.

(** ** The fusion with a degraded or malformed judge result *)













(** ** The recommender: what escapes its handler, what it reads *)

(** X12: with a configured model and working retrieval, a judge result
    whose risk factors cannot be joined (not a dictionary, or a
    ['risk_factors'] that is not a sequence of strings) makes
    [generate_recommendation] raise: the prompt is built before the
    handler is entered. *)
Theorem generate_recommendation_raises_on_unjoinable_factors
    (self : RAGRecommender.t) (lib : PyLib) (ra : RiskAssessment)
    (conversation_text : string) (c : OpenAI)
    (hiv_context mh_context : list string) (e : exn) :
  RAGRecommender.client self = Some c ->
  RAGRecommender.retrieve_relevant_chunks self (hiv_query ra) 3%Z
  = Return hiv_context ->
  RAGRecommender.retrieve_relevant_chunks self (mh_query ra) 3%Z
  = Return mh_context ->
  (risk_factors_text (hiv_risk ra) = Raise e
   \/ (exists hiv_factors,
         risk_factors_text (hiv_risk ra) = Return hiv_factors
         /\ risk_factors_text (mental_health_risk ra) = Raise e)) ->
  RAGRecommender.generate_recommendation self lib ra conversation_text
  = Raise e.
Proof.
  intros Hc Hh Hm H. unfold RAGRecommender.generate_recommendation.
  rewrite Hc. fold (hiv_query ra). fold (mh_query ra). rewrite Hh, Hm.
  cbn [bind]. unfold risk_factors_text in H.
  destruct H as [H | [hf [H1 H2]]].
  - destruct (py_get (llm_based (hiv_risk ra)) "risk_factors"
                (JArr [JStr "None identified"])) as [lh|e'];
      cbn [bind] in H |- *;
      [rewrite H; reflexivity | inversion H; reflexivity].
  - destruct (py_get (llm_based (hiv_risk ra)) "risk_factors"
                (JArr [JStr "None identified"])) as [lh|e'];
      cbn [bind] in H1 |- *; [|discriminate].
    rewrite H1. cbn [bind].
    destruct (py_get (llm_based (mental_health_risk ra)) "risk_factors"
                (JArr [JStr "None identified"])) as [lm|e'];
      cbn [bind] in H2 |- *;
      [rewrite H2; reflexivity | inversion H2; reflexivity].
Qed.

(** X13: [generate_recommendation] reads at most the first 800
    characters of the conversation: two conversations that agree on them
    give the same result for the same risk assessment. *)
Theorem recommendation_reads_800_characters (self : RAGRecommender.t)
    (lib : PyLib) (ra : RiskAssessment) (text1 text2 : string) :
  str_take 800 text1 = str_take 800 text2 ->
  RAGRecommender.generate_recommendation self lib ra text1
  = RAGRecommender.generate_recommendation self lib ra text2.
Proof.
  intros E. unfold RAGRecommender.generate_recommendation,
    RAGRecommender.recommendation_prompt.
  rewrite E. reflexivity.
Qed.

(** ** The analyzer *)

Lemma str_take_length (n : nat) (s : string) :
  String.length (str_take n s) = Nat.min n (String.length s).
Proof.
  revert s; induction n as [|n IH]; intros [|c s]; simpl;
    try reflexivity.
  rewrite IH. reflexivity.
Qed.

Lemma sapp_length (a b : string) :
  String.length (a ++ b) = (String.length a + String.length b)%nat.
Proof. induction a as [|c a IH]; simpl; [reflexivity | now rewrite IH]. Qed.

Lemma analyze_conversation_inv (self : ConversationAnalyzer.t) (lib : PyLib)
    (conv : Conversation) (a : Analysis) :
  ConversationAnalyzer.analyze_conversation self lib conv = Return a ->
  RiskScorer.hybrid_score (ConversationAnalyzer.risk_scorer self) lib conv
  = Return (risk_assessment a)
  /\ RAGRecommender.generate_recommendation
       (ConversationAnalyzer.recommender self) lib (risk_assessment a)
       (full_text conv)
     = Return (recommendations a)
  /\ conversation a
     = {| summary_message_count := message_count conv;
          text_preview := str_take 200 (full_text conv) ++ "..." |}.
Proof.
  unfold ConversationAnalyzer.analyze_conversation.
  destruct (RiskScorer.hybrid_score _ lib conv) as [r|e]; cbn [bind];
    [|discriminate].
  destruct (RAGRecommender.generate_recommendation _ lib r (full_text conv))
    as [v|e] eqn:G; cbn [bind]; [|discriminate].
  intros E.
  assert (Ea : a = {| conversation :=
                        {| summary_message_count := message_count conv;
                           text_preview :=
                             str_take 200 (full_text conv) ++ "..." |};
                      risk_assessment := r;
                      recommendations := v |}) by congruence.
  rewrite Ea. cbn [risk_assessment recommendations conversation].
  split; [reflexivity|]. split; [exact G | reflexivity].
Qed.


(** X15: the text preview of an analysis is the first 200 characters of
    the conversation followed by three dots, also when nothing was cut:
    its length is min(200, length of the text) + 3. *)
Theorem text_preview_length (self : ConversationAnalyzer.t) (lib : PyLib)
    (conv : Conversation) (a : Analysis) :
  ConversationAnalyzer.analyze_conversation self lib conv = Return a ->
  text_preview (conversation a) = str_take 200 (full_text conv) ++ "..."
  /\ String.length (text_preview (conversation a))
     = (Nat.min 200 (String.length (full_text conv)) + 3)%nat.
Proof.
  intros H. apply analyze_conversation_inv in H.
  destruct H as [_ [_ ->]]. cbn [conversation text_preview].
  split; [reflexivity|].
  rewrite sapp_length, str_take_length. reflexivity.
Qed.

(** ** The dataset *)

Lemma numbered_ids (i : Z) (analyses : list Analysis) :
  map conversation_id (numbered i analyses)
  = map (fun k => (i + Z.of_nat k)%Z) (seq 1 (List.length analyses)).
Proof.
  revert i; induction analyses as [|a rest IH]; intros i; [reflexivity|].
  cbn [numbered map List.length seq].
  rewrite IH, <- (seq_shift (List.length rest) 1), map_map.
  replace (i + Z.of_nat 1)%Z with (i + 1)%Z by lia.
  f_equal. apply map_ext. intros k. lia.
Qed.

Lemma numbered_analyses (i : Z) (analyses : list Analysis) :
  map analysis (numbered i analyses) = analyses.
Proof.
  revert i; induction analyses as [|a rest IH]; intros i; [reflexivity|].
  cbn [numbered map analysis]. rewrite IH. reflexivity.
Qed.

Lemma numbered_Forall2 {A : Type} (R : A -> Analysis -> Prop) (xs : list A)
    (analyses : list Analysis) (i : Z) :
  Forall2 R xs analyses ->
  Forall2 (fun x r => R x (analysis r)) xs (numbered i analyses).
Proof.
  intros F. revert i. induction F as [|x a xs analyses Ha F IH];
    intros i; cbn [numbered]; constructor; [exact Ha | apply IH].
Qed.

(** The loop returns exactly when every conversation is analysed, and
    then it numbers the analyses in order. *)
Lemma analyze_each_returns (self : ConversationAnalyzer.t) (lib : PyLib)
    (convs : list Conversation) (i : Z) (acc results : list DatasetResult) :
  Dataset.analyze_each self lib i convs acc = Return results
  <-> exists analyses,
      Forall2 (fun conv a =>
                 ConversationAnalyzer.analyze_conversation self lib conv
                 = Return a) convs analyses
      /\ results = (acc ++ numbered i analyses)%list.
Proof.
  revert i acc. induction convs as [|conv rest IH]; intros i acc.
  - cbn [Dataset.analyze_each]. split.
    + intros E. exists []. split; [constructor|].
      rewrite app_nil_r. congruence.
    + intros [analyses [F ->]]. inversion F. rewrite app_nil_r.
      reflexivity.
  - cbn [Dataset.analyze_each].
    destruct (ConversationAnalyzer.analyze_conversation self lib conv)
      as [a|e] eqn:Ea; cbn [bind].
    + rewrite IH. split.
      * intros [analyses [F ->]]. exists (a :: analyses).
        split; [constructor; assumption|].
        rewrite <- app_assoc. reflexivity.
      * intros [analyses [F ->]]. inversion F as [|c a' cs as' Ha F']; subst.
        exists as'. split; [assumption|].
        assert (a' = a) by congruence. subst a'.
        rewrite <- app_assoc. reflexivity.
    + split; [discriminate|].
      intros [analyses [F _]]. inversion F; congruence.
Qed.

(** The loop raises exactly the exception of the first conversation whose
    analysis raises. *)
Lemma analyze_each_raises (self : ConversationAnalyzer.t) (lib : PyLib)
    (convs : list Conversation) (i : Z) (acc : list DatasetResult) (e : exn) :
  Dataset.analyze_each self lib i convs acc = Raise e
  <-> exists before conv after,
      convs = (before ++ conv :: after)%list
      /\ Forall (fun c =>
                   exists a,
                     ConversationAnalyzer.analyze_conversation self lib c
                     = Return a) before
      /\ ConversationAnalyzer.analyze_conversation self lib conv = Raise e.
Proof.
  revert i acc. induction convs as [|conv rest IH]; intros i acc.
  - cbn [Dataset.analyze_each]. split; [discriminate|].
    intros [before [c [after [E _]]]]. destruct before; discriminate.
  - cbn [Dataset.analyze_each].
    destruct (ConversationAnalyzer.analyze_conversation self lib conv)
      as [a|e'] eqn:Ea; cbn [bind].
    + rewrite IH. split.
      * intros [before [c [after [-> [F R]]]]].
        exists (conv :: before), c, after. split; [reflexivity|].
        split; [constructor; [exists a; exact Ea | exact F] | exact R].
      * intros [before [c [after [E [F R]]]]].
        destruct before as [|b before].
        -- cbn in E. inversion E; subst. congruence.
        -- cbn in E. inversion E; subst. inversion F; subst.
           exists before, c, after. auto.
    + split.
      * intros E. exists [], conv, rest. split; [reflexivity|].
        split; [constructor | congruence].
      * intros [before [c [after [E [F R]]]]].
        destruct before as [|b before].
        -- cbn in E. inversion E; subst. congruence.
        -- cbn in E. inversion E; subst. inversion F as [|? ? [a Ha] ?].
           congruence.
Qed.

Lemma analyze_dataset_selected (self : ConversationAnalyzer.t) (lib : PyLib)
    (content : string) (limit : option Z) :
  Dataset.analyze_dataset self lib content limit
  = Dataset.analyze_each self lib 0
      (selected (load_conversations content) limit) [].
Proof. reflexivity. Qed.

(** X16: when [analyze_dataset] returns, there is one result for each
    conversation kept, in order; result number k is the analysis of the
    k-th conversation and carries the identifier k, counted from 1. *)
Theorem analyze_dataset_numbers_results (self : ConversationAnalyzer.t)
    (lib : PyLib) (content : string) (limit : option Z)
    (results : list DatasetResult) :
  Dataset.analyze_dataset self lib content limit = Return results ->
  Forall2 (fun conv r =>
             ConversationAnalyzer.analyze_conversation self lib conv
             = Return (analysis r))
          (selected (load_conversations content) limit) results
  /\ List.length results
     = List.length (selected (load_conversations content) limit)
  /\ map conversation_id results
     = map Z.of_nat (seq 1 (List.length results)).
Proof.
  rewrite analyze_dataset_selected, analyze_each_returns.
  intros [analyses [F ->]]. cbn [app].
  assert (L : List.length (numbered 0 analyses) = List.length analyses).
  { rewrite <- (numbered_analyses 0 analyses) at 2.
    rewrite length_map. reflexivity. }
  split; [|split].
  - exact (numbered_Forall2
             (fun conv a =>
                ConversationAnalyzer.analyze_conversation self lib conv
                = Return a) _ _ 0 F).
  - rewrite L. symmetry. eapply Forall2_length. exact F.
  - rewrite numbered_ids, L. apply map_ext. intros k. lia.
Qed.

Lemma py_slice_head {A : Type} (xs : list A) (l : Z) :
  (0 < l)%Z -> py_slice xs 0 l = firstn (Z.to_nat l) xs.
Proof.
  intros H. unfold py_slice, slice_bound.
  destruct (Z.ltb_spec 0 0); [lia|].
  destruct (Z.ltb_spec l 0); [lia|].
  rewrite (Z.min_l 0) by lia. cbn [Z.to_nat skipn].
  rewrite <- (firstn_clip (Z.to_nat l)). f_equal. lia.
Qed.

Lemma py_slice_drop_tail {A : Type} (xs : list A) (l : Z) :
  (l < 0)%Z ->
  py_slice xs 0 l = firstn (List.length xs - Z.to_nat (- l)) xs.
Proof.
  intros H. unfold py_slice, slice_bound.
  destruct (Z.ltb_spec 0 0); [lia|].
  destruct (Z.ltb_spec l 0); [|lia].
  rewrite (Z.min_l 0) by lia. cbn [Z.to_nat skipn]. f_equal. lia.
Qed.

(** X17: how [limit] selects the conversations [analyze_dataset] works
    on: none given, or 0, keeps them all; a positive limit keeps that
    many from the start; a negative limit drops that many from the
    end. *)
Theorem analyze_dataset_limit (self : ConversationAnalyzer.t) (lib : PyLib)
    (content : string) :
  let convs := load_conversations content in
  Dataset.analyze_dataset self lib content None
  = Dataset.analyze_each self lib 0 convs []
  /\ Dataset.analyze_dataset self lib content (Some 0%Z)
     = Dataset.analyze_each self lib 0 convs []
  /\ (forall l, (0 < l)%Z ->
        Dataset.analyze_dataset self lib content (Some l)
        = Dataset.analyze_each self lib 0 (firstn (Z.to_nat l) convs) [])
  /\ (forall l, (l < 0)%Z ->
        Dataset.analyze_dataset self lib content (Some l)
        = Dataset.analyze_each self lib 0
            (firstn (List.length convs - Z.to_nat (- l)) convs) []).
Proof.
  cbv zeta. split; [reflexivity|]. split; [reflexivity|].
  split; intros l H; rewrite analyze_dataset_selected; unfold selected;
    (destruct (Z.eqb_spec l 0); [lia|]).
  - rewrite py_slice_head by assumption. reflexivity.
  - rewrite py_slice_drop_tail by assumption. reflexivity.
Qed.

(** X18: [analyze_dataset] is all or nothing: it raises exactly when the
    analysis of some kept conversation raises, with the exception of the
    first such conversation, and the results of the conversations before
    it are lost. *)
Theorem analyze_dataset_raises_with_first_failure
    (self : ConversationAnalyzer.t) (lib : PyLib) (content : string)
    (limit : option Z) (e : exn) :
  Dataset.analyze_dataset self lib content limit = Raise e
  <-> exists before conv after,
      selected (load_conversations content) limit
      = (before ++ conv :: after)%list
      /\ Forall (fun c =>
                   exists a,
                     ConversationAnalyzer.analyze_conversation self lib c
                     = Return a) before
      /\ ConversationAnalyzer.analyze_conversation self lib conv = Raise e.
Proof. rewrite analyze_dataset_selected. apply analyze_each_raises. Qed.

Lemma py_get_score_number (llm : json) (q : Q) :
  model_score llm = Some q ->
  exists v, py_get llm "score" (JNum 0) = Return v /\ is_number v = true.
Proof.
  unfold model_score, py_get. destruct llm as [| | | | |d]; try discriminate.
  destruct (assoc "score" d) as [[| b | x | | |]|]; try discriminate;
    intros _; eexists; split; reflexivity.
Qed.

Lemma summary_rows (results : list DatasetResult) :
  Forall (fun r =>
            (exists q,
               model_score (llm_based (hiv_risk (risk_assessment (analysis r))))
               = Some q)
            /\ (exists q,
                  model_score
                    (llm_based
                       (mental_health_risk (risk_assessment (analysis r))))
                  = Some q)) results ->
  exists rows,
    Dataset.create_summary_dataframe results = Return rows
    /\ Forall2 summarises results rows.
Proof.
  induction 1 as [|r rest [[qh Hh] [qm Hm]] _ [rows [E F]]].
  - exists []. split; [reflexivity | constructor].
  - destruct (py_get_score_number _ _ Hh) as [vh [Eh Nh]].
    destruct (py_get_score_number _ _ Hm) as [vm [Em Nm]].
    cbn [Dataset.create_summary_dataframe]. rewrite Eh, Em, E. cbn [bind].
    eexists. split; [reflexivity|].
    constructor; [|exact F].
    unfold summarises. cbn. repeat split; assumption.
Qed.

(** X19: on the results of [analyze_dataset] the summary never raises: it
    has one row per result, in order, carrying the identifier, the message
    count, the final and rule scores and categories of the result; its two
    model-score columns hold numbers. *)
Theorem summary_of_analyzed_dataset (self : ConversationAnalyzer.t)
    (lib : PyLib) (content : string) (limit : option Z)
    (results : list DatasetResult) :
  Dataset.analyze_dataset self lib content limit = Return results ->
  exists rows,
    Dataset.create_summary_dataframe results = Return rows
    /\ Forall2 summarises results rows.
Proof.
  rewrite analyze_dataset_selected, analyze_each_returns.
  intros [analyses [F ->]]. cbn [app]. apply summary_rows.
  apply Forall_forall. intros r Hr.
  assert (Ha : In (analysis r) analyses).
  { rewrite <- (numbered_analyses 0 analyses). apply in_map, Hr. }
  assert (G : exists conv,
             ConversationAnalyzer.analyze_conversation self lib conv
             = Return (analysis r)).
  { clear Hr. induction F as [|conv a convs analyses E F IH];
      [destruct Ha|].
    destruct Ha as [<-|Ha]; [exists conv; exact E | apply IH, Ha]. }
  destruct G as [conv G]. apply analyze_conversation_inv in G.
  destruct G as [G _]. apply hybrid_score_spec in G.
  destruct G as [h [m [qh [qm [_ [_ [Qh [Qm ->]]]]]]]].
  cbn [hiv_risk mental_health_risk domain_entry llm_based].
  split; [exists qh | exists qm]; assumption.
Qed.

(** ** Loading conversations *)

Lemma rstrip_cons (c : ascii) (r : string) :
  rstrip (String c r)
  = match rstrip r with
    | EmptyString => if isspace c then EmptyString else String c EmptyString
    | String d r' => String c (String d r')
    end.
Proof. reflexivity. Qed.

Lemma rstrip_idem (s : string) : rstrip (rstrip s) = rstrip s.
Proof.
  induction s as [|c s IH]; [reflexivity|].
  rewrite rstrip_cons. destruct (rstrip s) as [|d r] eqn:E.
  - destruct (isspace c) eqn:Ec; [reflexivity|].
    rewrite rstrip_cons. cbn [rstrip]. rewrite Ec. reflexivity.
  - rewrite rstrip_cons, IH. reflexivity.
Qed.

Lemma lstrip_rstrip (s : string) :
  lstrip s = s -> lstrip (rstrip s) = rstrip s.
Proof.
  destruct s as [|c s]; [reflexivity|].
  cbn [lstrip]. destruct (isspace c) eqn:Ec.
  - intros E. exfalso.
    assert (L : forall t, (String.length (lstrip t) <= String.length t)%nat).
    { induction t as [|d t IH]; [simpl; lia|].
      cbn [lstrip]. destruct (isspace d); simpl in *; lia. }
    pose proof (L s) as Ls. rewrite E in Ls. simpl in Ls. lia.
  - intros _. rewrite rstrip_cons. destruct (rstrip s);
      [rewrite Ec|]; cbn [lstrip]; rewrite Ec; reflexivity.
Qed.

Lemma lstrip_idem (s : string) : lstrip (lstrip s) = lstrip s.
Proof.
  induction s as [|c s IH]; [reflexivity|].
  cbn [lstrip]. destruct (isspace c) eqn:Ec; [exact IH|].
  cbn [lstrip]. rewrite Ec. reflexivity.
Qed.

(** Stripping twice is stripping once. *)
Lemma strip_idem (s : string) : strip (strip s) = strip s.
Proof.
  unfold strip. rewrite (lstrip_rstrip (lstrip s) (lstrip_idem s)).
  apply rstrip_idem.
Qed.

Lemma span_not_spec (c : ascii) (s a b : string) :
  span_not c s = (a, b) -> s = a ++ b /\ free_of c a = true.
Proof.
  revert a b; induction s as [|d s IH]; intros a b; cbn [span_not].
  - intros E. inversion E. split; reflexivity.
  - destruct (Ascii.eqb d c) eqn:Ed.
    + intros E. inversion E. split; reflexivity.
    + destruct (span_not c s) as [a' b'].
      intros E. inversion E; subst.
      destruct (IH a' b eq_refl) as [-> F].
      split; [reflexivity|]. cbn [free_of]. rewrite Ed, F. reflexivity.
Qed.

Lemma match_role_spec (s who rest : string) :
  match_role s = Some (who, rest) -> who = "User" \/ who = "AI".
Proof.
  unfold match_role. destruct (drop_prefix "User" s).
  - intros E. inversion E. left. reflexivity.
  - destruct (drop_prefix "AI" s); [|discriminate].
    intros E. inversion E. right. reflexivity.
Qed.

(** What a matching line yields. *)
Lemma match_line_spec (line stamp who said : string) :
  match_line line = Some (stamp, who, said) ->
  (who = "User" \/ who = "AI")
  /\ truthy stamp = true
  /\ free_of "]" stamp = true
  /\ truthy said = true.
Proof.
  unfold match_line. destruct line as [|c r]; [discriminate|].
  destruct c as [[] [] [] [] [] [] [] []]; try discriminate.
  destruct (span_not "]" r) as [st after] eqn:Es.
  destruct (truthy st) eqn:Ts; [|discriminate].
  destruct (drop_prefix "] " after) as [ab|]; [|discriminate].
  destruct (match_role ab) as [[w ar]|] eqn:Er; [|discriminate].
  destruct (drop_prefix ": " ar) as [body|]; [|discriminate].
  destruct (truthy (fst (span_not (ascii_of_nat 10) body))) eqn:Tb;
    [|discriminate].
  intros E. inversion E; subst.
  apply span_not_spec in Es. destruct Es as [_ F].
  apply match_role_spec in Er. auto.
Qed.

Lemma parse_messages_from (lines : list string) (acc : list Message) :
  Forall well_formed_message acc ->
  Forall well_formed_message
    (fold_left
       (fun messages line =>
          match match_line line with
          | Some (stamp, who, said) =>
              (messages ++ [ {| timestamp := stamp; role := who;
                               text := strip said |} ])%list
          | None => messages
          end)
       lines acc).
Proof.
  revert acc; induction lines as [|line lines IH]; intros acc H;
    [exact H|].
  cbn [fold_left]. apply IH.
  destruct (match_line line) as [[[stamp who] said]|] eqn:E; [|exact H].
  apply match_line_spec in E. destruct E as [Hw [Ht [Hf _]]].
  apply Forall_app. split; [exact H|].
  constructor; [|constructor].
  unfold well_formed_message. cbn [role timestamp text].
  split; [exact Hw|]. split; [exact Ht|]. split; [exact Hf|].
  apply strip_idem.
Qed.

Lemma parse_messages_well_formed (lines : list string) :
  Forall well_formed_message (parse_messages lines).
Proof. apply parse_messages_from. constructor. Qed.

Lemma load_conversations_from (blocks : list string)
    (acc : list Conversation) :
  Forall well_formed_conversation acc ->
  Forall well_formed_conversation
    (fold_left
       (fun conversations block =>
          if truthy (strip block) then
            let lines := split_sep nl (strip block) in
            let messages := parse_messages lines in
            match messages with
            | [] => conversations
            | _ :: _ =>
                (conversations ++
                   [ {| messages := messages;
                        full_text := join " " (map text messages);
                        user_text :=
                          join " "
                            (map text
                               (filter
                                  (fun m => String.eqb (role m) "User")
                                  messages));
                        message_count :=
                          Z.of_nat (List.length messages) |} ])%list
            end
          else conversations)
       blocks acc).
Proof.
  revert acc; induction blocks as [|block blocks IH]; intros acc H;
    [exact H|].
  cbn [fold_left]. apply IH.
  destruct (truthy (strip block)); [|exact H]. cbv zeta.
  pose proof (parse_messages_well_formed (split_sep nl (strip block))) as W.
  destruct (parse_messages (split_sep nl (strip block))) as [|m ms];
    [exact H|].
  apply Forall_app. split; [exact H|].
  constructor; [|constructor].
  unfold well_formed_conversation.
  cbn [messages message_count full_text user_text].
  split; [discriminate|]. auto.
Qed.

(** X20: every conversation [load_conversations] returns has at least
    one message; its message count is the number of its messages; its
    full text is the message texts joined by single spaces and its user
    text the same over the messages of the user; every message has the
    role User or AI, a time stamp that is not empty and holds no closing
    bracket, and a text without white space at either end. *)
Theorem load_conversations_well_formed (content : string) :
  Forall well_formed_conversation (load_conversations content).
Proof. apply load_conversations_from. constructor. Qed.

Lemma span_not_before (c : ascii) (a b : string) :
  free_of c a = true -> span_not c (a ++ String c b) = (a, String c b).
Proof.
  induction a as [|d a IH]; cbn [append span_not free_of]; intros F.
  - rewrite Ascii.eqb_refl. reflexivity.
  - apply andb_true_iff in F. destruct F as [Fd Fa].
    apply negb_true_iff in Fd. rewrite Fd, (IH Fa). reflexivity.
Qed.

Lemma span_not_all (c : ascii) (a : string) :
  free_of c a = true -> span_not c a = (a, EmptyString).
Proof.
  induction a as [|d a IH]; cbn [span_not free_of]; intros F;
    [reflexivity|].
  apply andb_true_iff in F. destruct F as [Fd Fa].
  apply negb_true_iff in Fd. rewrite Fd, (IH Fa). reflexivity.
Qed.

(** X21: a line written as [[stamp] role: text], with a stamp that is
    not empty and holds no closing bracket, the role User or AI, and a
    text that is not empty and holds no newline, is read back as that
    stamp, role and text; the message keeps the text stripped of white
    space at both ends. *)
Theorem match_line_reads_formatted_line (stamp who said : string) :
  truthy stamp = true ->
  free_of "]" stamp = true ->
  who = "User" \/ who = "AI" ->
  truthy said = true ->
  free_of (ascii_of_nat 10) said = true ->
  match_line (format_line stamp who said) = Some (stamp, who, said)
  /\ parse_messages [format_line stamp who said]
     = [ {| timestamp := stamp; role := who; text := strip said |} ].
Proof.
  intros Ts Fs Hw Tb Fb.
  assert (E : match_line (format_line stamp who said)
              = Some (stamp, who, said)).
  { unfold format_line, match_line.
    change ("[" ++ stamp ++ "] " ++ who ++ ": " ++ said)
      with (String "[" (stamp ++ String "]" (" " ++ who ++ ": " ++ said))).
    cbv iota beta.
    rewrite (span_not_before "]" stamp _ Fs), Ts.
    destruct Hw as [-> | ->]; cbn [drop_prefix append Ascii.eqb Bool.eqb
                                   match_role];
      rewrite (span_not_all _ said Fb); cbn [fst]; rewrite Tb; reflexivity. }
  split; [exact E|].
  unfold parse_messages. cbn [fold_left]. rewrite E. reflexivity.
Qed.

(** ** Chunking: overlap, short texts, gaps *)

Open Scope nat_scope.

Lemma spec_chunks_nth (words : list string) (width step k : nat) :
  nth_error (spec_chunks words width step) k
  = if k <? window_count (List.length words) step
    then Some (join " " (window words width step k)) else None.
Proof.
  unfold spec_chunks. rewrite nth_error_map, nth_error_seq.
  destruct (k <? window_count (List.length words) step); reflexivity.
Qed.

Lemma spec_chunks_length (words : list string) (width step : nat) :
  List.length (spec_chunks words width step)
  = window_count (List.length words) step.
Proof. unfold spec_chunks. rewrite length_map, length_seq. reflexivity. Qed.

Lemma split_window (text : string) (width step k : nat) :
  split (join " " (window (split text) width step k))
  = window (split text) width step k.
Proof. apply split_join, window_words, split_words. Qed.

Lemma chunk_text_general (text : string) (chunk_size overlap : Z) :
  (1 <= chunk_size)%Z -> (overlap < chunk_size)%Z ->
  chunk_text text chunk_size overlap
  = Return (spec_chunks (split text) (Z.to_nat chunk_size)
              (Z.to_nat (chunk_size - overlap))).
Proof.
  intros Hw Ho.
  replace chunk_size with (Z.of_nat (Z.to_nat chunk_size)) at 1 by lia.
  replace overlap
    with (Z.of_nat (Z.to_nat chunk_size)
          - Z.of_nat (Z.to_nat (chunk_size - overlap)))%Z at 1 by lia.
  apply chunk_text_spec; lia.
Qed.

(** X22: for [0 <= overlap < chunk_size], two consecutive chunks share
    the overlap: what is left of a chunk after its first
    [chunk_size - overlap] words is the beginning of the next chunk, its
    first [overlap] words. *)
Theorem consecutive_chunks_overlap (text : string) (chunk_size overlap : Z)
    (chunks : list string) (k : nat) (c c' : string) :
  (0 <= overlap < chunk_size)%Z ->
  chunk_text text chunk_size overlap = Return chunks ->
  nth_error chunks k = Some c ->
  nth_error chunks (S k) = Some c' ->
  skipn (Z.to_nat (chunk_size - overlap)) (split c)
  = firstn (Z.to_nat overlap) (split c').
Proof.
  intros H E Hc Hc'.
  rewrite chunk_text_general in E by lia. inversion E; subst chunks.
  rewrite spec_chunks_nth in Hc, Hc'.
  destruct (k <? _); [|discriminate].
  destruct (S k <? _); [|discriminate].
  inversion Hc; inversion Hc'; subst. rewrite !split_window.
  unfold window. set (step := Z.to_nat (chunk_size - overlap)).
  rewrite skipn_firstn_comm, skipn_skipn, firstn_firstn.
  replace (Nat.min (Z.to_nat overlap) (Z.to_nat chunk_size))
    with (Z.to_nat chunk_size - step) by (unfold step; lia).
  reflexivity.
Qed.

(** X23: for [0 <= overlap < chunk_size], a text without words gives no
    chunk, and a text of at most [chunk_size - overlap] words gives one
    chunk: its words joined by single spaces. *)
Theorem short_text_is_one_chunk (text : string) (chunk_size overlap : Z) :
  (0 <= overlap < chunk_size)%Z ->
  (split text = [] -> chunk_text text chunk_size overlap = Return [])
  /\ (split text <> [] ->
      (Z.of_nat (List.length (split text)) <= chunk_size - overlap)%Z ->
      chunk_text text chunk_size overlap = Return [join " " (split text)]).
Proof.
  intros H. rewrite chunk_text_general by lia. unfold spec_chunks. split.
  - intros ->.
    assert (C : window_count (@List.length string [])
                  (Z.to_nat (chunk_size - overlap)) = 0).
    { pose proof (window_count_spec (@List.length string [])
                    (Z.to_nat (chunk_size - overlap)) 0) as W0.
      simpl List.length in *. lia. }
    rewrite C. reflexivity.
  - intros N L.
    assert (C : window_count (List.length (split text))
                  (Z.to_nat (chunk_size - overlap)) = 1).
    { destruct (split text) as [|w ws]; [congruence|].
      pose proof (window_count_spec (List.length (w :: ws))
                    (Z.to_nat (chunk_size - overlap)) 0) as W0.
      pose proof (window_count_spec (List.length (w :: ws))
                    (Z.to_nat (chunk_size - overlap)) 1) as W1.
      simpl List.length in *. lia. }
    rewrite C. cbn [seq map]. unfold window. cbn [Nat.mul skipn].
    rewrite firstn_all2 by lia. reflexivity.
Qed.

(** X24: for [chunk_size >= 1] and any [overlap < chunk_size], negative
    ones included, [chunk_text] returns; word [p] of chunk [k] is word
    [k * step + p] of the text, where [step = chunk_size - overlap], and
    [p < chunk_size].  So a word whose position [j] has
    [j mod step >= chunk_size] is in no chunk: with a negative overlap
    the words between two windows are dropped. *)
Theorem chunk_words_positions (text : string) (chunk_size overlap : Z) :
  (1 <= chunk_size)%Z -> (overlap < chunk_size)%Z ->
  let words := split text in
  let width := Z.to_nat chunk_size in
  let step := Z.to_nat (chunk_size - overlap) in
  exists chunks,
    chunk_text text chunk_size overlap = Return chunks
    /\ List.length chunks = window_count (List.length words) step
    /\ (forall k c p w,
           nth_error chunks k = Some c ->
           nth_error (split c) p = Some w ->
           p < width /\ nth_error words (k * step + p) = Some w)
    /\ (forall j, width <= j mod step ->
           forall k c p w,
             nth_error chunks k = Some c ->
             nth_error (split c) p = Some w ->
             k * step + p <> j).
Proof.
  intros Hw Ho words width step.
  assert (Hs : 0 < step) by (unfold step; lia).
  assert (P : forall k c p w,
             nth_error (spec_chunks words width step) k = Some c ->
             nth_error (split c) p = Some w ->
             p < width /\ nth_error words (k * step + p) = Some w).
  { intros k c p w Hc Hp. rewrite spec_chunks_nth in Hc.
    destruct (k <? _); [|discriminate]. inversion Hc; subst c.
    unfold words in Hp. rewrite split_window in Hp. unfold window in Hp.
    rewrite nth_error_firstn in Hp.
    destruct (Nat.ltb_spec p width); [|discriminate].
    rewrite nth_error_skipn in Hp. auto. }
  exists (spec_chunks words width step).
  split; [apply chunk_text_general; assumption|].
  split; [apply spec_chunks_length|].
  split; [exact P|].
  intros j Hj k c p w Hc Hp E.
  destruct (P k c p w Hc Hp) as [Hpw _].
  pose proof (Nat.mod_upper_bound j step) as M.
  destruct (Nat.lt_ge_cases p step) as [L|G].
  - assert (j mod step = p).
    { subst j. rewrite Nat.add_comm, Nat.Div0.mod_add.
      apply Nat.mod_small, L. }
    lia.
  - lia.
Qed.

Lemma fold_no_chunks (f : Z -> string) (idx : list Z) (acc : list string) :
  (forall i, In i idx -> truthy (f i) = false) ->
  fold_left
    (fun chunks i => if truthy (f i) then (chunks ++ [f i])%list else chunks)
    idx acc
  = acc.
Proof.
  revert acc; induction idx as [|i idx IH]; intros acc H; [reflexivity|].
  cbn [fold_left]. rewrite (H i) by (left; reflexivity).
  apply IH. intros j Hj. apply H. right. exact Hj.
Qed.

Lemma py_slice_empty {A : Type} (xs : list A) (i : Z) : py_slice xs i i = [].
Proof.
  unfold py_slice. rewrite Z.sub_diag. reflexivity.
Qed.

(** X25: with [chunk_size = 0] and a negative overlap every slice is
    empty, every chunk is the empty string and is left out: [chunk_text]
    returns the empty list for every text. *)
Theorem chunk_size_zero_gives_no_chunk (text : string) (overlap : Z) :
  (overlap < 0)%Z -> chunk_text text 0 overlap = Return [].
Proof.
  intros H. unfold chunk_text.
  destruct (py_range 0 (Z.of_nat (List.length (split text))) (0 - overlap))
    as [idx|e] eqn:E.
  - cbn [bind]. f_equal.
    apply (fold_no_chunks
             (fun i => join " " (py_slice (split text) i (i + 0)))).
    intros i _. rewrite Z.add_0_r, py_slice_empty. reflexivity.
  - unfold py_range in E.
    destruct (Z.eqb_spec (0 - overlap) 0); [lia|].
    destruct (0 <? 0 - overlap)%Z; discriminate.
Qed.

(** ** The further properties at example inputs *)

Open Scope Q_scope.


Lemma no_keyword_match_is_low_witness :
  (forall p,
      In p (high HIV_RISK_KEYWORDS) \/ In p (medium HIV_RISK_KEYWORDS)
      \/ In p (low HIV_RISK_KEYWORDS) ->
      ~ occurs p (lower "Fever and a rash since Monday"))
  /\ snd (fst (RiskScorer.rule_based_score "Fever and a rash since Monday"
                 HIV_RISK_KEYWORDS HIV_SYMPTOM_PATTERNS)) = "LOW".
Proof.
  assert (H : forall p,
             In p (high HIV_RISK_KEYWORDS) \/ In p (medium HIV_RISK_KEYWORDS)
             \/ In p (low HIV_RISK_KEYWORDS) ->
             ~ occurs p (lower "Fever and a rash since Monday")).
  { intros p Hp O. apply str_in_occurs in O.
    cbn [HIV_RISK_KEYWORDS high medium low In] in Hp.
    repeat (destruct Hp as [Hp|Hp]; [try (subst p; discriminate)|]);
      try (subst p; discriminate); try contradiction. }
  split; [exact H|].
  exact (proj2 (proj2 (no_keyword_match_is_low
                         "Fever and a rash since Monday" HIV_RISK_KEYWORDS
                         HIV_SYMPTOM_PATTERNS H))).
Defined.

Lemma highest_tier_wins_witness :
  (0 < match_count (high HIV_RISK_KEYWORDS) example_text)%Z
  /\ fst (fst (RiskScorer.rule_based_score example_text HIV_RISK_KEYWORDS
                 HIV_SYMPTOM_PATTERNS))
     == fst (fst (RiskScorer.rule_based_score example_text
                    {| high := high HIV_RISK_KEYWORDS; medium := [];
                       low := [] |} HIV_SYMPTOM_PATTERNS)).
Proof.
  assert (H : (0 < match_count (high HIV_RISK_KEYWORDS) example_text)%Z)
    by reflexivity.
  split; [exact H|].
  exact (proj1 (highest_tier_wins example_text HIV_RISK_KEYWORDS
                  HIV_SYMPTOM_PATTERNS) H [] []).
Defined.


Lemma empty_text_matches_only_empty_phrases_witness :
  ~ In EmptyString (high HIV_RISK_KEYWORDS)
  /\ ~ In EmptyString (medium HIV_RISK_KEYWORDS)
  /\ ~ In EmptyString (low HIV_RISK_KEYWORDS)
  /\ ~ In EmptyString HIV_SYMPTOM_PATTERNS
  /\ snd (fst (RiskScorer.rule_based_score EmptyString HIV_RISK_KEYWORDS
                 HIV_SYMPTOM_PATTERNS)) = "LOW".
Proof.
  assert (N : forall l : list string,
             forallb (fun p => negb (String.eqb p EmptyString)) l = true ->
             ~ In EmptyString l).
  { intros l F Hin. rewrite forallb_forall in F.
    specialize (F _ Hin). discriminate. }
  assert (Nh := N (high HIV_RISK_KEYWORDS) eq_refl).
  assert (Nm := N (medium HIV_RISK_KEYWORDS) eq_refl).
  assert (Nl := N (low HIV_RISK_KEYWORDS) eq_refl).
  assert (Ns := N HIV_SYMPTOM_PATTERNS eq_refl).
  repeat (split; [assumption|]).
  exact (proj2 (proj2 (proj2 (proj2 (proj2
           (empty_text_matches_only_empty_phrases HIV_RISK_KEYWORDS
              HIV_SYMPTOM_PATTERNS)))) Nh Nm Nl Ns)).
Defined.





Lemma generate_recommendation_raises_on_unjoinable_factors_witness :
  RAGRecommender.client example_recommender = Some failing_client
  /\ risk_factors_text (hiv_risk example_risk_null_factors)
     = Raise (mk_exn "TypeError" "can only join an iterable")
  /\ RAGRecommender.generate_recommendation example_recommender example_lib
       example_risk_null_factors example_text
     = Raise (mk_exn "TypeError" "can only join an iterable").
Proof.
  split; [reflexivity|]. split; [reflexivity|].
  exact (generate_recommendation_raises_on_unjoinable_factors
           example_recommender example_lib example_risk_null_factors
           example_text failing_client example_chunks example_chunks
           (mk_exn "TypeError" "can only join an iterable")
           eq_refl eq_refl eq_refl (or_introl eq_refl)).
Defined.

Lemma recommendation_reads_800_characters_witness :
  str_take 800 long_text_a = str_take 800 long_text_b
  /\ long_text_a <> long_text_b
  /\ RAGRecommender.generate_recommendation example_recommender example_lib
       example_risk long_text_a
     = RAGRecommender.generate_recommendation example_recommender
         example_lib example_risk long_text_b.
Proof.
  assert (H : str_take 800 long_text_a = str_take 800 long_text_b)
    by (vm_compute; reflexivity).
  split; [exact H|].
  split; [vm_compute; discriminate|].
  exact (recommendation_reads_800_characters example_recommender example_lib
           example_risk long_text_a long_text_b H).
Defined.


Lemma text_preview_length_witness :
  exists a,
    ConversationAnalyzer.analyze_conversation unconfigured_analyzer
      example_lib example_conversation = Return a
    /\ String.length (text_preview (conversation a)) = 71%nat.
Proof.
  destruct (ConversationAnalyzer.analyze_conversation unconfigured_analyzer
              example_lib example_conversation) as [a|e] eqn:E;
    [|vm_compute in E; discriminate].
  exists a. split; [reflexivity|].
  rewrite (proj2 (text_preview_length unconfigured_analyzer example_lib
                    example_conversation a E)).
  reflexivity.
Defined.

Lemma analyze_dataset_numbers_results_witness :
  exists results,
    Dataset.analyze_dataset unconfigured_analyzer example_lib example_file
      None = Return results
    /\ map conversation_id results = [1; 2]%Z.
Proof.
  destruct (Dataset.analyze_dataset unconfigured_analyzer example_lib
              example_file None) as [results|e] eqn:E;
    [|vm_compute in E; discriminate].
  exists results. split; [reflexivity|].
  destruct (analyze_dataset_numbers_results unconfigured_analyzer
              example_lib example_file None results E) as [_ [L I]].
  rewrite I, L. reflexivity.
Defined.

Lemma analyze_dataset_limit_witness :
  (0 < 1)%Z
  /\ Dataset.analyze_dataset unconfigured_analyzer example_lib example_file
       (Some 1%Z)
     = Dataset.analyze_each unconfigured_analyzer example_lib 0
         (firstn 1 (load_conversations example_file)) [].
Proof.
  assert (H : (0 < 1)%Z) by reflexivity.
  split; [exact H|].
  exact (proj1 (proj2 (proj2 (analyze_dataset_limit unconfigured_analyzer
                                example_lib example_file))) 1%Z H).
Defined.

Lemma analyze_dataset_raises_with_first_failure_witness :
  exists e,
    Dataset.analyze_dataset example_analyzer list_reply_lib example_file None
    = Raise e
    /\ exists before conv after,
        selected (load_conversations example_file) None
        = (before ++ conv :: after)%list
        /\ ConversationAnalyzer.analyze_conversation example_analyzer
             list_reply_lib conv = Raise e.
Proof.
  destruct (Dataset.analyze_dataset example_analyzer list_reply_lib
              example_file None) as [results|e] eqn:E;
    [vm_compute in E; discriminate|].
  exists e. split; [reflexivity|].
  destruct (proj1 (analyze_dataset_raises_with_first_failure
                     example_analyzer list_reply_lib example_file None e) E)
    as [before [conv [after [S [_ R]]]]].
  exists before, conv, after. split; [exact S | exact R].
Defined.

Lemma summary_of_analyzed_dataset_witness :
  exists results rows,
    Dataset.analyze_dataset unconfigured_analyzer example_lib example_file
      None = Return results
    /\ Dataset.create_summary_dataframe results = Return rows
    /\ Forall2 summarises results rows.
Proof.
  destruct (Dataset.analyze_dataset unconfigured_analyzer example_lib
              example_file None) as [results|e] eqn:E;
    [|vm_compute in E; discriminate].
  destruct (summary_of_analyzed_dataset unconfigured_analyzer example_lib
              example_file None results E) as [rows [S F]].
  exists results, rows. split; [reflexivity|]. split; [exact S | exact F].
Defined.

Lemma match_line_reads_formatted_line_witness :
  truthy "2024-01-05 10:00" = true
  /\ free_of "]" "2024-01-05 10:00" = true
  /\ truthy "I feel hopeless " = true
  /\ free_of (ascii_of_nat 10) "I feel hopeless " = true
  /\ parse_messages [format_line "2024-01-05 10:00" "User" "I feel hopeless "]
     = [ {| timestamp := "2024-01-05 10:00"; role := "User";
            text := "I feel hopeless" |} ].
Proof.
  repeat (split; [reflexivity|]).
  exact (proj2 (match_line_reads_formatted_line "2024-01-05 10:00" "User"
                  "I feel hopeless " eq_refl eq_refl (or_introl eq_refl)
                  eq_refl eq_refl)).
Defined.

Lemma consecutive_chunks_overlap_witness :
  (0 <= 1 < 3)%Z
  /\ chunk_text "a b c d e f g" 3 1 = Return ["a b c"; "c d e"; "e f g"; "g"]
  /\ skipn 2 (split "a b c") = firstn 1 (split "c d e").
Proof.
  assert (H : (0 <= 1 < 3)%Z) by lia.
  split; [exact H|]. split; [reflexivity|].
  exact (consecutive_chunks_overlap "a b c d e f g" 3 1
           ["a b c"; "c d e"; "e f g"; "g"] 0 "a b c" "c d e" H
           eq_refl eq_refl eq_refl).
Defined.

Lemma short_text_is_one_chunk_witness :
  (0 <= 50 < 400)%Z
  /\ split "  two   words " <> []
  /\ chunk_text "  two   words " 400 50 = Return ["two words"].
Proof.
  assert (H : (0 <= 50 < 400)%Z) by lia.
  assert (N : split "  two   words " <> []) by discriminate.
  split; [exact H|]. split; [exact N|].
  exact (proj2 (short_text_is_one_chunk "  two   words " 400 50 H) N
           ltac:(vm_compute; discriminate)).
Defined.

Lemma chunk_words_positions_witness :
  (1 <= 2)%Z /\ (-1 < 2)%Z
  /\ exists chunks,
      chunk_text "a b c d e f g" 2 (-1) = Return chunks
      /\ List.length chunks = 3%nat.
Proof.
  assert (H1 : (1 <= 2)%Z) by lia.
  assert (H2 : (-1 < 2)%Z) by lia.
  split; [exact H1|]. split; [exact H2|].
  destruct (chunk_words_positions "a b c d e f g" 2 (-1) H1 H2)
    as [chunks [E [L _]]].
  exists chunks. split; [exact E | exact L].
Defined.

Lemma chunk_size_zero_gives_no_chunk_witness :
  (-1 < 0)%Z /\ chunk_text "a b c" 0 (-1) = Return [].
Proof.
  assert (H : (-1 < 0)%Z) by lia.
  split; [exact H|].
  exact (chunk_size_zero_gives_no_chunk "a b c" (-1) H).
Defined.

(** ** Lines that are not messages *)

Lemma parse_messages_acc (lines : list string) (acc : list Message) :
  fold_left
    (fun messages line =>
       match match_line line with
       | Some (stamp, who, said) =>
           (messages ++ [ {| timestamp := stamp; role := who;
                            text := strip said |} ])%list
       | None => messages
       end)
    lines acc
  = (acc ++ parse_messages lines)%list.
Proof.
  unfold parse_messages. revert acc.
  induction lines as [|line lines IH]; intros acc; cbn [fold_left].
  - rewrite app_nil_r. reflexivity.
  - rewrite IH, (IH (match match_line line with
                     | Some (stamp, who, said) => _
                     | None => []
                     end)).
    destruct (match_line line) as [[[stamp who] said]|]; cbn [app].
    + rewrite <- app_assoc. reflexivity.
    + reflexivity.
Qed.

Lemma parse_messages_app (a b : list string) :
  parse_messages (a ++ b)
  = (parse_messages a ++ parse_messages b)%list.
Proof.
  unfold parse_messages at 1. rewrite fold_left_app.
  fold (parse_messages a). apply parse_messages_acc.
Qed.

Lemma match_line_needs_bracket (line : string) :
  startswith "[" line = false -> match_line line = None.
Proof.
  destruct line as [|c r]; [reflexivity|].
  destruct c as [[] [] [] [] [] [] [] []]; try reflexivity.
  discriminate.
Qed.

(** X26: a line that does not begin with an opening bracket adds nothing:
    the messages read from a block are those read from the block without
    that line, so the later lines of a message written over several lines
    are dropped. *)
Theorem lines_without_bracket_are_ignored (before after : list string)
    (line : string) :
  startswith "[" line = false ->
  parse_messages (before ++ line :: after)
  = parse_messages (before ++ after).
Proof.
  intros H. rewrite !parse_messages_app.
  change (line :: after) with ([line] ++ after)%list.
  rewrite parse_messages_app. unfold parse_messages at 2.
  cbn [fold_left]. rewrite (match_line_needs_bracket _ H). reflexivity.
Qed.

Lemma lines_without_bracket_are_ignored_witness :
  startswith "[" "and it still hurts" = false
  /\ parse_messages
       ["[2024-01-05 10:00] User: I feel hopeless"; "and it still hurts"]
     = parse_messages ["[2024-01-05 10:00] User: I feel hopeless"].
Proof.
  split; [reflexivity|].
  exact (lines_without_bracket_are_ignored
           ["[2024-01-05 10:00] User: I feel hopeless"] []
           "and it still hurts" eq_refl).
Defined.
